(** * ProviderList: booking handlers of the service screen

    A shallow embedding of [src/app/components/Service/ProviderList.tsx].
    The component is a React function component: every render creates a
    fresh closure (the render scope) over the state values of that render,
    the handlers read the scope they were created in, and state changes are
    requests ([setX] calls) that React applies to the live state.  The
    embedding keeps that split: a handler is a procedure over a [Scope] that
    yields a list of [Effect]s, and [run] applies the state requests among
    them to a [State]. *)

From Stdlib Require Import String List Bool Arith Lia.
From stdpp Require Import base list sets strings pretty.

Open Scope string_scope.
Open Scope list_scope.
Set Warnings "-register-all".

(** ** Values of the JavaScript runtime *)

(** [string | null] is [option string]; a value is falsy when it is [null]
    or the empty string. *)
Definition truthy (v : option string) : bool :=
  match v with
  | Some s => negb (String.eqb s "")
  | None => false
  end.

(** Optional chaining [o?.f] on a nullable field. *)
Definition chain {A B} (o : option A) (f : A -> option B) : option B :=
  match o with
  | Some a => f a
  | None => None
  end.
Notation "o ?. f" := (chain o f) (at level 40, left associativity).

(** Error objects returned by the data and the auth services. *)
Record PostgrestError := { message : string }.

(** ** Rows and view models *)

(** [Database['public']['Enums']['booking_status']]: a string at run time. *)
Definition BookingStatus := string.

Module BookingFormData.
Record t := { booking_date : string; special_requests : string }.
End BookingFormData.

(** [bookingDataToInsert] *)
Module BookingInsert.
Record t := {
  service_id : string;
  client_id : string;
  booking_date : string;
  special_requests : string;
  status : BookingStatus
}.
End BookingInsert.

(** [{ name: string | null }] *)
Module UserName.
Record t := { name : option string }.
End UserName.

(** [{ title: string | null; users: { name: string | null } | null }] *)
Module ServiceRel.
Record t := { title : option string; users : option UserName.t }.
End ServiceRel.

(** [BookingWithDetailsServiceAndUser]: a bookings row with its nested
    service relation.  The generated row type is not among the sources; the
    fields are those the component writes, reads or orders by. *)
Module Booking.
Record t := {
  id : string;
  service_id : string;
  client_id : string;
  booking_date : string;
  special_requests : option string;
  status : BookingStatus;
  updated_at : string;
  services : option ServiceRel.t
}.
End Booking.

(** [BookingRequest], with the fields of the object literal that
    [fetchBookingRequests] builds. *)
Module BookingRequest.
Record t := {
  id : string;
  booking_date : string;
  time : string;
  special_requests : string;
  status : BookingStatus;
  serviceTitle : string;
  practitionerName : string
}.

(** [{ ...req, status: s }] *)
Definition with_status (req : t) (s : BookingStatus) : t :=
  {| id := id req;
     booking_date := booking_date req;
     time := time req;
     special_requests := special_requests req;
     status := s;
     serviceTitle := serviceTitle req;
     practitionerName := practitionerName req |}.
End BookingRequest.

(** [ServiceWithProvider] *)
Module Service.
Record t := {
  id : string;
  user_id : string;
  title : string;
  description : option string;
  specialties : option (list string);
  users : option UserName.t
}.
End Service.

(** A row of [select('id')] on the services table. *)
Module ServiceId.
Record t := { id : string }.
End ServiceId.

(** ** The query builder of the data service *)

Inductive Projection :=
| Star
| Column (name : string)
| Relation (name : string) (columns : list Projection).

Inductive Filter :=
| Eq (column value : string)
| In_ (column : string) (values : list string).

Module Query.
Record t := {
  table : string;
  columns : list Projection;
  order : option (string * bool);   (* column, ascending *)
  limit : option nat;
  filters : list Filter
}.

Definition from (tbl : string) : t :=
  {| table := tbl; columns := []; order := None; limit := None; filters := [] |}.
Definition select (cols : list Projection) (q : t) : t :=
  {| table := table q; columns := cols; order := order q;
     limit := limit q; filters := filters q |}.
Definition order_by (col : string) (ascending : bool) (q : t) : t :=
  {| table := table q; columns := columns q; order := Some (col, ascending);
     limit := limit q; filters := filters q |}.
Definition limit_to (n : nat) (q : t) : t :=
  {| table := table q; columns := columns q; order := order q;
     limit := Some n; filters := filters q |}.
Definition eq (col v : string) (q : t) : t :=
  {| table := table q; columns := columns q; order := order q;
     limit := limit q; filters := filters q ++ [Eq col v] |}.
Definition in_ (col : string) (vs : list string) (q : t) : t :=
  {| table := table q; columns := columns q; order := order q;
     limit := limit q; filters := filters q ++ [In_ col vs] |}.
End Query.

(** [{ data, error }] *)
Record Response (A : Type) := { data : option A; error : option PostgrestError }.
Arguments data {A} _.
Arguments error {A} _.

Module Session.
Record user_t := { id : string }.
Record t := { user : user_t }.
End Session.

(** [{ data: { session }, error }] of [auth.getSession]. *)
Record AuthResponse := { session : option Session.t; auth_error : option PostgrestError }.

(** The collaborators the component calls: the data service answers each
    request, and the runtime formats dates. *)
Record Backend := {
  getSession : AuthResponse;
  select_bookings : Query.t -> Response (list Booking.t);
  select_service_ids : Query.t -> Response (list ServiceId.t);
  select_services : Query.t -> Response (list Service.t);
  insert_booking : BookingInsert.t -> Response Booking.t;
  update_bookings : BookingStatus -> list Filter -> option PostgrestError;
  toLocaleDateString : string -> string;
  toLocaleTimeString : string -> string
}.

(** ** Component state and effects *)

Record State := {
  services : list Service.t;
  isLoadingServices : bool;
  selectedServiceId : option string;
  bookingRequests : list BookingRequest.t;
  clientId : option string
}.

(** The [useState] initial values. *)
Definition initial_state : State :=
  {| services := []; isLoadingServices := true; selectedServiceId := None;
     bookingRequests := []; clientId := None |}.

Record Props := { onBookingMade : bool  (* is the optional callback given *) }.

(** What a closure created by a render sees: the props, the state values of
    that render and the component-level [userRole]. *)
Record Scope := { props : Props; seen : State; userRole : string }.

(** A state setter takes a value or an updater of the previous value. *)
Inductive SetStateAction (A : Type) :=
| Value (v : A)
| Updater (f : A -> A).
Arguments Value {A} _.
Arguments Updater {A} _.

Definition apply_action {A} (a : SetStateAction A) (prev : A) : A :=
  match a with
  | Value v => v
  | Updater f => f prev
  end.

Inductive LogLevel := Log | Warn | Error.

(** Everything a handler does to the outside.  [Console] records the text of
    the call and the error object passed along, if any; data dumps passed
    as further arguments are not recorded. *)
Inductive Effect :=
| Console (lvl : LogLevel) (text : string) (err : option PostgrestError)
| Alert_alert (title text : string)
| Auth_getSession
| Select (q : Query.t)
| Insert (tbl : string) (rows : list BookingInsert.t)
| Update (tbl : string) (st : BookingStatus) (fs : list Filter)
| Call_onBookingMade
| Channel_subscribe (channel event schema tbl : string)
| setServices (v : list Service.t)
| setIsLoadingServices (v : bool)
| setSelectedServiceId (a : SetStateAction (option string))
| setBookingRequests (a : SetStateAction (list BookingRequest.t))
| setClientId (v : option string).

Definition apply_effect (s : State) (e : Effect) : State :=
  match e with
  | setServices v =>
      {| services := v; isLoadingServices := isLoadingServices s;
         selectedServiceId := selectedServiceId s;
         bookingRequests := bookingRequests s; clientId := clientId s |}
  | setIsLoadingServices v =>
      {| services := services s; isLoadingServices := v;
         selectedServiceId := selectedServiceId s;
         bookingRequests := bookingRequests s; clientId := clientId s |}
  | setSelectedServiceId a =>
      {| services := services s; isLoadingServices := isLoadingServices s;
         selectedServiceId := apply_action a (selectedServiceId s);
         bookingRequests := bookingRequests s; clientId := clientId s |}
  | setBookingRequests a =>
      {| services := services s; isLoadingServices := isLoadingServices s;
         selectedServiceId := selectedServiceId s;
         bookingRequests := apply_action a (bookingRequests s);
         clientId := clientId s |}
  | setClientId v =>
      {| services := services s; isLoadingServices := isLoadingServices s;
         selectedServiceId := selectedServiceId s;
         bookingRequests := bookingRequests s; clientId := v |}
  | _ => s
  end.

(** The live state after a procedure's effects. *)
Definition run (s : State) (es : list Effect) : State :=
  fold_left apply_effect es s.

(** ** Procedures: effects in order, with early [return] *)

Inductive Flow (A : Type) :=
| Next (a : A)
| Returned.
Arguments Next {A} _.
Arguments Returned {A}.

Record Proc (A : Type) := mkProc { effects : list Effect; flow : Flow A }.
Arguments mkProc {A} _ _.
Arguments effects {A} _.
Arguments flow {A} _.

#[global] Instance proc_ret : MRet Proc := fun A a => mkProc [] (Next a).
#[global] Instance proc_bind : MBind Proc := fun A B k m =>
  match flow m with
  | Next a => mkProc (effects m ++ effects (k a)) (flow (k a))
  | Returned => mkProc (effects m) Returned
  end.

Definition emit (e : Effect) : Proc unit := mkProc [e] (Next tt).
Definition return_ {A} : Proc A := mkProc [] Returned.
Definition when (b : bool) (m : Proc unit) : Proc unit :=
  if b then m else mret tt.
(** A request to a collaborator: the call is recorded, its answer handed on. *)
Definition await {A} (e : Effect) (answer : A) : Proc A := mkProc [e] (Next answer).
(** A call of an [async] function whose result is not awaited: its effects
    happen, its [return] ends only the callee. *)
Definition call (m : Proc unit) : Proc unit := mkProc (effects m) (Next tt).

(** ** The handlers *)

Section Handlers.
Context (supabase : Backend).

(** [if (error)] *)
Definition failed {A} (r : Response A) : bool :=
  match error r with Some _ => true | None => false end.

Definition handleBookingRequest (sc : Scope)
    (request : BookingFormData.t) (serviceId : string) : Proc unit :=
  when (negb (truthy (clientId (seen sc))))
    (emit (Alert_alert "Error" "You must be logged in to make a booking request.");;
     return_);;
  (* past the guard [clientId] holds a non-empty string *)
  let bookingDataToInsert :=
    {| BookingInsert.service_id := serviceId;
       BookingInsert.client_id := default "" (clientId (seen sc));
       BookingInsert.booking_date := BookingFormData.booking_date request;
       BookingInsert.special_requests := BookingFormData.special_requests request;
       BookingInsert.status := "pending" |} in
  emit (Console Log "ProviderList: Attempting to insert booking:" None);;
  r ← await (Insert "bookings" [bookingDataToInsert])
            (insert_booking supabase bookingDataToInsert);
  (if failed r then
     emit (Console Error "Error storing booking request:" (error r))
   else
     emit (Console Log "Booking request stored:" None);;
     when (onBookingMade (props sc))
       (emit (Console Log "ProviderList: Calling onBookingMade callback." None);;
        emit Call_onBookingMade));;
  emit (setSelectedServiceId (Value None)).

Definition handleRespond (id : string) (status : BookingStatus) : Proc unit :=
  emit (Console Log ("Provider responded to request " +:+ id +:+ ": " +:+ status) None);;
  error ← await (Update "bookings" status [Eq "id" id])
                (update_bookings supabase status [Eq "id" id]);
  match error with
  | Some e => emit (Console Error "Error updating booking status:" (Some e))
  | None =>
      emit (setBookingRequests (Updater (fun prevRequests =>
        map (fun req =>
               if String.eqb (BookingRequest.id req) id
               then BookingRequest.with_status req status
               else req)
            prevRequests)));;
      emit (Console Log ("Notify client: Your booking request (ID: " +:+ id
                         +:+ ") was " +:+ status +:+ ".") None)
  end.

Definition handleCancel (id : string) : Proc unit :=
  emit (Console Log ("Client cancelling booking request " +:+ id) None);;
  error ← await (Update "bookings" "cancelled" [Eq "id" id])
                (update_bookings supabase "cancelled" [Eq "id" id]);
  match error with
  | Some e => emit (Console Error "Error cancelling booking:" (Some e))
  | None =>
      emit (setBookingRequests (Updater (fun prevRequests =>
        map (fun req =>
               if String.eqb (BookingRequest.id req) id
               then BookingRequest.with_status req "cancelled"
               else req)
            prevRequests)));;
      emit (Console Log ("Booking request (ID: " +:+ id +:+ ") cancelled.") None)
  end.

(** The arrow function mapped over the fetched rows. *)
Definition formatRequest (req : Booking.t) : BookingRequest.t :=
  let bookingDateTime := Booking.booking_date req in
  {| BookingRequest.id := Booking.id req;
     BookingRequest.booking_date := toLocaleDateString supabase bookingDateTime;
     BookingRequest.time := toLocaleTimeString supabase bookingDateTime;
     BookingRequest.special_requests := default "" (Booking.special_requests req);
     BookingRequest.status := Booking.status req;
     BookingRequest.serviceTitle :=
       default "Unknown Service" (Booking.services req ?. ServiceRel.title);
     BookingRequest.practitionerName :=
       default "Unknown Practitioner"
         (Booking.services req ?. ServiceRel.users ?. UserName.name) |}.

(** The query every role starts from. *)
Definition bookings_query : Query.t :=
  Query.limit_to 3
    (Query.order_by "updated_at" false
       (Query.select
          [Star; Relation "services" [Column "title"; Relation "users" [Column "name"]]]
          (Query.from "bookings"))).

(** The practitioner's sub-fetch: identifiers of the services owned by
    [currentUserId]. *)
Definition owned_services_query (currentUserId : string) : Query.t :=
  Query.eq "user_id" currentUserId
    (Query.select [Column "id"] (Query.from "services")).

(** [(data || []).map(...)] *)
Definition formattedRequests (data : option (list Booking.t))
    : list BookingRequest.t :=
  map formatRequest (default [] data).

Definition fetchBookingRequests (sc : Scope) (currentUserId : option string)
    : Proc unit :=
  when (negb (truthy currentUserId))
    (emit (Console Log "No user ID available, skipping booking fetch." None);;
     emit (setBookingRequests (Value []));;
     return_);;
  (* past the guard [currentUserId] holds a non-empty string *)
  let currentUserId := default "" currentUserId in
  let query := bookings_query in
  query ←
    (if String.eqb (userRole sc) "client" then
       mret (Query.eq "client_id" currentUserId query)
     else if String.eqb (userRole sc) "practitioner" then
       let services_query := owned_services_query currentUserId in
       r ← await (Select services_query) (select_service_ids supabase services_query);
       when (failed r)
         (emit (Console Error "Error fetching practitioner services:" (error r));;
          emit (setBookingRequests (Value []));;
          return_);;
       let serviceIds := map ServiceId.id (default [] (data r)) in
       if (0 <? List.length serviceIds)%nat then
         mret (Query.in_ "service_id" serviceIds query)
       else
         emit (setBookingRequests (Value []));;
         return_
     else
       emit (Console Warn "User role not determined, cannot fetch specific bookings." None);;
       emit (setBookingRequests (Value []));;
       return_);
  r ← await (Select query) (select_bookings supabase query);
  emit (Console Log "[fetchBookingRequests] Raw data from Supabase:" None);;
  emit (Console Log "[fetchBookingRequests] Error from Supabase:" (error r));;
  if failed r then
    emit (Console Error "Error fetching booking requests:" (error r));;
    emit (setBookingRequests (Value []))
  else
    emit (Console Log ("[fetchBookingRequests] Successfully fetched "
                       +:+ pretty (List.length (default [] (data r)))
                       +:+ " raw bookings.") None);;
    let formattedRequests := formattedRequests (data r) in
    emit (setBookingRequests (Value formattedRequests));;
    emit (Console Log ("[fetchBookingRequests] Set "
                       +:+ pretty (List.length formattedRequests)
                       +:+ " formatted requests to state.") None).

(** *** The mount effect *)

Definition fetchCurrentUser (sc : Scope) : Proc unit :=
  r ← await Auth_getSession (getSession supabase);
  match auth_error r, session r with
  | Some e, _ =>
      emit (Console Error "Error fetching session:" (Some e));;
      emit (Alert_alert "Authentication Error" "Could not retrieve user session.")
  | None, Some s =>
      emit (Console Log "User session found, ID:" None);;
      emit (setClientId (Some (Session.id (Session.user s))));;
      call (fetchBookingRequests sc (Some (Session.id (Session.user s))))
  | None, None =>
      emit (Console Log "No active user session found." None);;
      emit (setBookingRequests (Value []))
  end.

Definition fetchServices : Proc unit :=
  emit (setIsLoadingServices true);;
  let q := Query.select [Star; Relation "users" [Column "name"]]
             (Query.from "services") in
  r ← await (Select q) (select_services supabase q);
  (if failed r then
     emit (Console Error "Error fetching services:" (error r));;
     emit (setServices [])
   else
     emit (Console Log "Fetched services:" None);;
     emit (setServices (default [] (data r))));;
  emit (setIsLoadingServices false).

(** The callback handed to the realtime channel.  It is created inside
    the effect, so [clientId] and [fetchBookingRequests] are those of the
    scope [sc] the effect ran in. *)
Definition bookingsChangeCallback (sc : Scope) (payload : string) : Proc unit :=
  emit (Console Log "Bookings change received!" None);;
  call (fetchBookingRequests sc (clientId (seen sc))).

(** The body of [useEffect(..., [])].  The two fetches are started
    without being awaited; they write disjoint state fields, so their
    effects are listed one task after the other. *)
Definition useEffect_body (sc : Scope) : Proc unit :=
  call (fetchCurrentUser sc);;
  call fetchServices;;
  emit (Channel_subscribe "public:bookings" "*" "public" "bookings").
End Handlers.

(** ** The component *)

(** A render: the closures it creates see the state [st] of that render;
    [userRole] is the placeholder constant of the component body. *)
Definition render (p : Props) (st : State) : Scope :=
  {| props := p; seen := st; userRole := "client" |}.

(** The dependency list of the effect is empty: it runs once, in the scope
    of the first render, and the channel keeps the callback made there. *)
Definition first_render (p : Props) : Scope := render p initial_state.

Definition mount (supabase : Backend) (p : Props) : State :=
  run initial_state (effects (useEffect_body supabase (first_render p))).

Definition on_bookings_change (supabase : Backend) (p : Props)
    (payload : string) : Proc unit :=
  bookingsChangeCallback supabase (first_render p) payload.

(** ** Classifying effects *)

Definition is_console (e : Effect) : bool :=
  match e with Console _ _ _ => true | _ => false end.

Definition is_select (e : Effect) : bool :=
  match e with Select _ => true | _ => false end.

(** The effects that reach a collaborator or the state: all but the log. *)
Definition observable (es : list Effect) : list Effect :=
  List.filter (fun e => negb (is_console e)) es.

(** The local patch of [handleRespond] and [handleCancel], as the updater
    they hand to [setBookingRequests]. *)
Definition patch_status (id : string) (status : BookingStatus)
    (prevRequests : list BookingRequest.t) : list BookingRequest.t :=
  map (fun req =>
         if String.eqb (BookingRequest.id req) id
         then BookingRequest.with_status req status
         else req)
      prevRequests.

(** The [select] requests sent to one table. *)
Definition selects_on (tbl : string) (es : list Effect) : list Effect :=
  List.filter
    (fun e => match e with
              | Select q => String.eqb (Query.table q) tbl
              | _ => false
              end)
    es.

(** The query of a client: the bookings whose client is [uid]. *)
Definition client_query (uid : string) : Query.t :=
  {| Query.table := "bookings";
     Query.columns :=
       [Star; Relation "services" [Column "title"; Relation "users" [Column "name"]]];
     Query.order := Some ("updated_at", false);
     Query.limit := Some 3;
     Query.filters := [Eq "client_id" uid] |}.

(** What [fetchBookingRequests] does from [await query] on. *)
Definition execute_query (supabase : Backend) (q : Query.t) : list Effect :=
  let r := select_bookings supabase q in
  [Select q;
   Console Log "[fetchBookingRequests] Raw data from Supabase:" None;
   Console Log "[fetchBookingRequests] Error from Supabase:" (error r)]
  ++ (if failed r then
        [Console Error "Error fetching booking requests:" (error r);
         setBookingRequests (Value [])]
      else
        [Console Log ("[fetchBookingRequests] Successfully fetched "
                      +:+ pretty (List.length (default [] (data r)))
                      +:+ " raw bookings.") None;
         setBookingRequests (Value (formattedRequests supabase (data r)));
         Console Log ("[fetchBookingRequests] Set "
                      +:+ pretty (List.length (formattedRequests supabase (data r)))
                      +:+ " formatted requests to state.") None]).

(** ** Sample data

    A signed-in client with two bookings, against a data service that
    answers every request, and the same service when every request fails. *)
Module Sample.
Definition props : Props := {| onBookingMade := true |}.

Definition request : BookingFormData.t :=
  {| BookingFormData.booking_date := "2024-06-01";
     BookingFormData.special_requests := "first visit" |}.

Definition row1 : Booking.t :=
  {| Booking.id := "b1"; Booking.service_id := "S1"; Booking.client_id := "user-1";
     Booking.booking_date := "2024-06-01T10:00:00Z";
     Booking.special_requests := Some "first visit";
     Booking.status := "pending"; Booking.updated_at := "2024-05-02T08:00:00Z";
     Booking.services :=
       Some {| ServiceRel.title := Some "Deep tissue";
               ServiceRel.users := Some {| UserName.name := Some "Alice" |} |} |}.

Definition row2 : Booking.t :=
  {| Booking.id := "b2"; Booking.service_id := "S2"; Booking.client_id := "user-1";
     Booking.booking_date := "2024-06-03T15:30:00Z";
     Booking.special_requests := None;
     Booking.status := "confirmed"; Booking.updated_at := "2024-05-01T08:00:00Z";
     Booking.services := None |}.

Definition failure : PostgrestError := {| message := "connection refused" |}.

Definition online : Backend :=
  {| getSession :=
       {| session := Some {| Session.user := {| Session.id := "user-1" |} |};
          auth_error := None |};
     select_bookings := fun _ => {| data := Some [row1; row2]; error := None |};
     select_service_ids := fun _ => {| data := Some []; error := None |};
     select_services := fun _ => {| data := Some []; error := None |};
     insert_booking := fun _ => {| data := Some row1; error := None |};
     update_bookings := fun _ _ => None;
     toLocaleDateString := fun s => substring 0 10 s;
     toLocaleTimeString := fun s => substring 11 5 s |}.

Definition offline : Backend :=
  {| getSession :=
       {| session := Some {| Session.user := {| Session.id := "user-1" |} |};
          auth_error := None |};
     select_bookings := fun _ => {| data := None; error := Some failure |};
     select_service_ids := fun _ => {| data := None; error := Some failure |};
     select_services := fun _ => {| data := None; error := Some failure |};
     insert_booking := fun _ => {| data := None; error := Some failure |};
     update_bookings := fun _ _ => Some failure;
     toLocaleDateString := fun s => substring 0 10 s;
     toLocaleTimeString := fun s => substring 11 5 s |}.

(** The state of a signed-in client with the form of service S1 open. *)
Definition signed_in : State :=
  {| services := []; isLoadingServices := false;
     selectedServiceId := Some "S1";
     bookingRequests := formattedRequests online (Some [row1; row2]);
     clientId := Some "user-1" |}.

(** The same screen when the session carries an empty identifier. *)
Definition empty_identifier : State :=
  {| services := []; isLoadingServices := false;
     selectedServiceId := Some "S1"; bookingRequests := [];
     clientId := Some "" |}.
End Sample.

(** ** The service cards

    The parts of the rendered view that carry logic: the button of a card,
    the inline form and the booking list section. *)

(** [v === s] for a nullable [v] and a string [s]. *)
Definition strict_eq (v : option string) (s : string) : bool :=
  match v with
  | Some x => String.eqb x s
  | None => false
  end.

(** [onPress] of the "Request Booking" button of a card. *)
Definition onPress (service : Service.t) : Proc unit :=
  emit (setSelectedServiceId (Updater (fun prevId =>
    if strict_eq prevId (Service.id service) then None
    else Some (Service.id service)))).

(** The props handed to [BookingRequestForm]. *)
Record BookingRequestForm := {
  onSubmit : BookingFormData.t -> Proc unit;
  onCancel : Proc unit
}.

(** [selectedServiceId === service.id && <BookingRequestForm ... />]: the
    form of a card, when the card shows one. *)
Definition card_form (supabase : Backend) (sc : Scope) (service : Service.t)
    : option BookingRequestForm :=
  match selectedServiceId (seen sc) with
  | Some selected =>
      if String.eqb selected (Service.id service) then
        Some {| onSubmit := fun formData =>
                  handleBookingRequest supabase sc formData selected;
                onCancel := emit (setSelectedServiceId (Value None)) |}
      else None
  | None => None
  end.

(** The effects a booking fetch is made of. *)
Definition fetch_effect (e : Effect) : bool :=
  match e with
  | Console _ _ _ | Select _ | setBookingRequests _ => true
  | _ => false
  end.

(** Requests that change rows of the data service. *)
Definition is_write (e : Effect) : bool :=
  match e with
  | Insert _ _ | Update _ _ _ => true
  | _ => false
  end.

Definition is_callback (e : Effect) : bool :=
  match e with Call_onBookingMade => true | _ => false end.

Definition is_alert (e : Effect) : bool :=
  match e with Alert_alert _ _ => true | _ => false end.

Definition is_subscribe (e : Effect) : bool :=
  match e with Channel_subscribe _ _ _ _ => true | _ => false end.

(** Does the card of [service] show the inline form. *)
Definition has_form (supabase : Backend) (sc : Scope) (service : Service.t) : bool :=
  match card_form supabase sc service with
  | Some _ => true
  | None => false
  end.

(** The query of the catalog: every service with its owner's name. *)
Definition catalog_query : Query.t :=
  {| Query.table := "services";
     Query.columns := [Star; Relation "users" [Column "name"]];
     Query.order := None;
     Query.limit := None;
     Query.filters := [] |}.

(** ** A sample catalog *)
Module Catalog.
Definition S1 : Service.t :=
  {| Service.id := "S1"; Service.user_id := "alice"; Service.title := "Deep tissue";
     Service.description := Some "60 minutes"; Service.specialties := None;
     Service.users := Some {| UserName.name := Some "Alice" |} |}.

Definition S2 : Service.t :=
  {| Service.id := "S2"; Service.user_id := "bob"; Service.title := "Shiatsu";
     Service.description := None; Service.specialties := Some ["back"; "neck"];
     Service.users := None |}.

(** A data service that knows the two services; alice owns S1. *)
Definition stocked : Backend :=
  {| getSession := getSession Sample.online;
     select_bookings := select_bookings Sample.online;
     select_service_ids := fun _ =>
       {| data := Some [{| ServiceId.id := "S1" |}]; error := None |};
     select_services := fun _ => {| data := Some [S1; S2]; error := None |};
     insert_booking := insert_booking Sample.online;
     update_bookings := update_bookings Sample.online;
     toLocaleDateString := toLocaleDateString Sample.online;
     toLocaleTimeString := toLocaleTimeString Sample.online |}.

(** An auth service that fails, in front of the same data. *)
Definition signed_out_error : Backend :=
  {| getSession := {| session := None; auth_error := Some Sample.failure |};
     select_bookings := select_bookings stocked;
     select_service_ids := select_service_ids stocked;
     select_services := select_services stocked;
     insert_booking := insert_booking stocked;
     update_bookings := update_bookings stocked;
     toLocaleDateString := toLocaleDateString stocked;
     toLocaleTimeString := toLocaleTimeString stocked |}.

(** No session, no error. *)
Definition signed_out : Backend :=
  {| getSession := {| session := None; auth_error := None |};
     select_bookings := select_bookings stocked;
     select_service_ids := select_service_ids stocked;
     select_services := select_services stocked;
     insert_booking := insert_booking stocked;
     update_bookings := update_bookings stocked;
     toLocaleDateString := toLocaleDateString stocked;
     toLocaleTimeString := toLocaleTimeString stocked |}.

Definition practitioner (st : State) : Scope :=
  {| props := Sample.props; seen := st; userRole := "practitioner" |}.

Definition admin (st : State) : Scope :=
  {| props := Sample.props; seen := st; userRole := "admin" |}.
End Catalog.

(** * Properties *)

(** ** Running effects *)

Lemma run_app (s : State) (es es' : list Effect) :
  run s (es ++ es') = run (run s es) es'.
Proof. unfold run. apply fold_left_app. Qed.

Lemma state_eta (s : State) :
  {| services := services s; isLoadingServices := isLoadingServices s;
     selectedServiceId := selectedServiceId s;
     bookingRequests := bookingRequests s; clientId := clientId s |} = s.
Proof. by destruct s. Qed.

Lemma truthy_Some (s : string) : truthy (Some s) = true ↔ s ≠ "".
Proof.
  unfold truthy. destruct (String.eqb_spec s ""); simpl; split; intros; congruence.
Qed.

Lemma truthy_inv (v : option string) :
  truthy v = true → ∃ s, v = Some s ∧ s ≠ "".
Proof.
  destruct v as [s|]; [|discriminate].
  intros H. exists s. split; [done|]. by apply truthy_Some.
Qed.

(** ** The local patch *)

Lemma patch_status_app id status (l1 l2 : list BookingRequest.t) :
  patch_status id status (l1 ++ l2)
  = patch_status id status l1 ++ patch_status id status l2.
Proof. unfold patch_status. apply map_app. Qed.

Lemma patch_status_absent id status (l : list BookingRequest.t) :
  Forall (fun req => BookingRequest.id req ≠ id) l →
  patch_status id status l = l.
Proof.
  induction 1 as [|req l Hreq _ IH]; [done|].
  cbn. rewrite (proj2 (String.eqb_neq _ _) Hreq).
  f_equal. exact IH.
Qed.

(** ** What the status handlers emit *)

Lemma handleRespond_ok supabase id status :
  update_bookings supabase status [Eq "id" id] = None →
  observable (effects (handleRespond supabase id status))
  = [Update "bookings" status [Eq "id" id];
     setBookingRequests (Updater (patch_status id status))].
Proof. intros H. unfold handleRespond. cbn. rewrite H. reflexivity. Qed.

Lemma handleRespond_failed supabase id status e :
  update_bookings supabase status [Eq "id" id] = Some e →
  observable (effects (handleRespond supabase id status))
  = [Update "bookings" status [Eq "id" id]].
Proof. intros H. unfold handleRespond. cbn. rewrite H. reflexivity. Qed.

Lemma handleCancel_ok supabase id :
  update_bookings supabase "cancelled" [Eq "id" id] = None →
  observable (effects (handleCancel supabase id))
  = [Update "bookings" "cancelled" [Eq "id" id];
     setBookingRequests (Updater (patch_status id "cancelled"))].
Proof. intros H. unfold handleCancel. cbn. rewrite H. reflexivity. Qed.

Lemma handleCancel_failed supabase id e :
  update_bookings supabase "cancelled" [Eq "id" id] = Some e →
  observable (effects (handleCancel supabase id))
  = [Update "bookings" "cancelled" [Eq "id" id]].
Proof. intros H. unfold handleCancel. cbn. rewrite H. reflexivity. Qed.

(** The log does not touch the state. *)
Lemma run_observable (s : State) (es : list Effect) :
  run s (observable es) = run s es.
Proof.
  revert s. induction es as [|e es IH]; intros s; [done|].
  destruct e; cbn; try apply IH.
Qed.

(** ** Creating a booking *)

(** C2. When the handler's scope holds no user identifier ([clientId] is
    null), no insert is performed, the alert is shown, and the state is
    left as it was. *)
Theorem handleBookingRequest_without_user
    supabase (sc : Scope) request serviceId (st : State) :
  clientId (seen sc) = None →
  (∀ tbl rows,
     Insert tbl rows ∉ effects (handleBookingRequest supabase sc request serviceId))
  ∧ Alert_alert "Error" "You must be logged in to make a booking request."
      ∈ effects (handleBookingRequest supabase sc request serviceId)
  ∧ run st (effects (handleBookingRequest supabase sc request serviceId)) = st.
Proof.
  intros Hnull. unfold handleBookingRequest. rewrite Hnull. cbn.
  split; [|split].
  - intros tbl rows Hin. apply list_elem_of_singleton in Hin. discriminate.
  - apply list_elem_of_singleton. reflexivity.
  - reflexivity.
Qed.

Lemma handleBookingRequest_without_user_witness :
  (∀ tbl rows,
     Insert tbl rows
     ∉ effects (handleBookingRequest Sample.online
                  (first_render Sample.props) Sample.request "S1"))
  ∧ Alert_alert "Error" "You must be logged in to make a booking request."
      ∈ effects (handleBookingRequest Sample.online
                   (first_render Sample.props) Sample.request "S1")
  ∧ run initial_state
      (effects (handleBookingRequest Sample.online
                  (first_render Sample.props) Sample.request "S1"))
    = initial_state.
Proof.
  apply (handleBookingRequest_without_user Sample.online
           (first_render Sample.props) Sample.request "S1" initial_state).
  reflexivity.
Defined.

(** What the handler emits once the guard [!clientId] lets it through. *)
Lemma handleBookingRequest_with_user supabase (sc : Scope) request serviceId :
  truthy (clientId (seen sc)) = true →
  ∃ row mid,
    effects (handleBookingRequest supabase sc request serviceId)
    = [Console Log "ProviderList: Attempting to insert booking:" None;
       Insert "bookings" [row]] ++ mid ++ [setSelectedServiceId (Value None)]
    ∧ BookingInsert.status row = "pending"
    ∧ BookingInsert.service_id row = serviceId
    ∧ Some (BookingInsert.client_id row) = clientId (seen sc)
    ∧ ∀ st, run st mid = st.
Proof.
  intros Hid. destruct (truthy_inv _ Hid) as (uid & Huid & _).
  unfold handleBookingRequest. rewrite Hid, Huid. cbn.
  set (row := BookingInsert.Build_t _ _ _ _ _).
  destruct (failed (insert_booking supabase row)) eqn:Hr; cbn.
  - exists row, [Console Error "Error storing booking request:"
                   (error (insert_booking supabase row))].
    repeat split.
  - destruct (onBookingMade (props sc)); cbn.
    + exists row, [Console Log "Booking request stored:" None;
                   Console Log "ProviderList: Calling onBookingMade callback." None;
                   Call_onBookingMade].
      repeat split.
    + exists row, [Console Log "Booking request stored:" None].
      repeat split.
Qed.

(** C9, as stated, fails: the guard is [!clientId], which also rejects the
    empty string.  With the non-null identifier [""] the handler alerts and
    returns, and the inline form stays open. *)
Lemma handleBookingRequest_empty_identifier :
  ¬ (∀ supabase (sc : Scope) request serviceId (st : State),
       clientId (seen sc) ≠ None →
       selectedServiceId
         (run st (effects (handleBookingRequest supabase sc request serviceId)))
       = None).
Proof.
  intros H.
  specialize (H Sample.online (render Sample.props Sample.empty_identifier)
                Sample.request "S1" Sample.empty_identifier).
  cbn in H. discriminate H. discriminate.
Qed.

(** C9, amended. When the handler's scope holds a non-null, non-empty user
    identifier, the insert is issued and, whatever its outcome, the last
    effect sets the selected-service identifier to null. *)
Theorem handleBookingRequest_closes_form
    supabase (sc : Scope) request serviceId (st : State) :
  truthy (clientId (seen sc)) = true →
  (∃ before row,
     effects (handleBookingRequest supabase sc request serviceId)
     = before ++ [setSelectedServiceId (Value None)]
     ∧ Insert "bookings" [row] ∈ before)
  ∧ selectedServiceId
      (run st (effects (handleBookingRequest supabase sc request serviceId)))
    = None.
Proof.
  intros Hid.
  destruct (handleBookingRequest_with_user supabase sc request serviceId Hid)
    as (row & mid & -> & _ & _ & _ & Hmid).
  split.
  - exists ([Console Log "ProviderList: Attempting to insert booking:" None;
             Insert "bookings" [row]] ++ mid), row.
    split; [by rewrite <- app_assoc|].
    apply elem_of_app. left. apply list_elem_of_further, list_elem_of_here.
  - rewrite !run_app. reflexivity.
Qed.

Lemma handleBookingRequest_closes_form_witness :
  (∃ before row,
     effects (handleBookingRequest Sample.offline
                (render Sample.props Sample.signed_in) Sample.request "S1")
     = before ++ [setSelectedServiceId (Value None)]
     ∧ Insert "bookings" [row] ∈ before)
  ∧ selectedServiceId
      (run Sample.signed_in
         (effects (handleBookingRequest Sample.offline
                     (render Sample.props Sample.signed_in) Sample.request "S1")))
    = None.
Proof.
  apply (handleBookingRequest_closes_form Sample.offline
           (render Sample.props Sample.signed_in) Sample.request "S1"
           Sample.signed_in).
  reflexivity.
Defined.

(** ** Updating and cancelling *)

(** C6. When exactly one entry of the view-model list carries the booking
    identifier, a successful status update leaves the list as it was but
    for that entry, whose status is the new status and whose other fields
    are unchanged. *)
Theorem handleRespond_patches_single_entry
    supabase id status (st : State) (l1 l2 : list BookingRequest.t) req :
  bookingRequests st = l1 ++ req :: l2 →
  BookingRequest.id req = id →
  Forall (fun r => BookingRequest.id r ≠ id) l1 →
  Forall (fun r => BookingRequest.id r ≠ id) l2 →
  update_bookings supabase status [Eq "id" id] = None →
  ∃ req',
    bookingRequests (run st (effects (handleRespond supabase id status)))
    = l1 ++ req' :: l2
    ∧ BookingRequest.status req' = status
    ∧ BookingRequest.id req' = BookingRequest.id req
    ∧ BookingRequest.booking_date req' = BookingRequest.booking_date req
    ∧ BookingRequest.time req' = BookingRequest.time req
    ∧ BookingRequest.special_requests req' = BookingRequest.special_requests req
    ∧ BookingRequest.serviceTitle req' = BookingRequest.serviceTitle req
    ∧ BookingRequest.practitionerName req' = BookingRequest.practitionerName req.
Proof.
  intros Hl Hid H1 H2 Hok.
  exists (BookingRequest.with_status req status).
  split; [|by repeat split].
  rewrite <- run_observable, (handleRespond_ok _ _ _ Hok). cbn.
  rewrite Hl, patch_status_app, (patch_status_absent _ _ _ H1).
  cbn. rewrite Hid, String.eqb_refl.
  fold (patch_status id status l2). by rewrite (patch_status_absent _ _ _ H2).
Qed.

Lemma handleRespond_patches_single_entry_witness :
  ∃ req',
    bookingRequests
      (run Sample.signed_in (effects (handleRespond Sample.online "b2" "declined")))
    = [formatRequest Sample.online Sample.row1] ++ req' :: []
    ∧ BookingRequest.status req' = "declined"
    ∧ BookingRequest.id req' = "b2"
    ∧ BookingRequest.booking_date req' = "2024-06-03"
    ∧ BookingRequest.time req' = "15:30"
    ∧ BookingRequest.special_requests req' = ""
    ∧ BookingRequest.serviceTitle req' = "Unknown Service"
    ∧ BookingRequest.practitionerName req' = "Unknown Practitioner".
Proof.
  apply (handleRespond_patches_single_entry Sample.online "b2" "declined"
           Sample.signed_in [formatRequest Sample.online Sample.row1] []
           (formatRequest Sample.online Sample.row2)).
  - reflexivity.
  - reflexivity.
  - repeat constructor. cbn. discriminate.
  - constructor.
  - reflexivity.
Defined.

(** C10. When no entry of the view-model list carries the booking
    identifier, the patch of a successful status update, and the patch of a
    successful cancel, leave the state, and so the list, as it was. *)
Theorem patch_of_absent_identifier supabase id status (st : State) :
  Forall (fun r => BookingRequest.id r ≠ id) (bookingRequests st) →
  (update_bookings supabase status [Eq "id" id] = None →
   setBookingRequests (Updater (patch_status id status))
     ∈ effects (handleRespond supabase id status)
   ∧ run st (effects (handleRespond supabase id status)) = st)
  ∧ (update_bookings supabase "cancelled" [Eq "id" id] = None →
     setBookingRequests (Updater (patch_status id "cancelled"))
       ∈ effects (handleCancel supabase id)
     ∧ run st (effects (handleCancel supabase id)) = st).
Proof.
  intros Habs. split; intros Hok.
  - split.
    + unfold handleRespond. cbn. rewrite Hok. cbn.
      do 2 apply list_elem_of_further. apply list_elem_of_here.
    + rewrite <- run_observable, (handleRespond_ok _ _ _ Hok). cbn.
      rewrite (patch_status_absent _ _ _ Habs). apply state_eta.
  - split.
    + unfold handleCancel. cbn. rewrite Hok. cbn.
      do 2 apply list_elem_of_further. apply list_elem_of_here.
    + rewrite <- run_observable, (handleCancel_ok _ _ Hok). cbn.
      rewrite (patch_status_absent _ _ _ Habs). apply state_eta.
Qed.

Lemma patch_of_absent_identifier_witness :
  (setBookingRequests (Updater (patch_status "b9" "declined"))
     ∈ effects (handleRespond Sample.online "b9" "declined")
   ∧ run Sample.signed_in (effects (handleRespond Sample.online "b9" "declined"))
     = Sample.signed_in)
  ∧ (setBookingRequests (Updater (patch_status "b9" "cancelled"))
       ∈ effects (handleCancel Sample.online "b9")
     ∧ run Sample.signed_in (effects (handleCancel Sample.online "b9"))
       = Sample.signed_in).
Proof.
  assert (Habs : Forall (fun r => BookingRequest.id r ≠ "b9")
                   (bookingRequests Sample.signed_in)).
  { repeat constructor; cbn; discriminate. }
  destruct (patch_of_absent_identifier Sample.online "b9" "declined"
              Sample.signed_in Habs) as [Hrespond Hcancel].
  split; [apply Hrespond | apply Hcancel]; reflexivity.
Defined.

(** C8. Cancelling a booking does what updating its status to "cancelled"
    does: the same update of the row with that identifier, on success the
    same patch of the local list, on failure nothing but a log entry.  The
    two differ in the text they log only. *)
Theorem handleCancel_as_handleRespond supabase id :
  observable (effects (handleCancel supabase id))
  = observable (effects (handleRespond supabase id "cancelled"))
  ∧ (∀ st : State,
       run st (effects (handleCancel supabase id))
       = run st (effects (handleRespond supabase id "cancelled")))
  ∧ (update_bookings supabase "cancelled" [Eq "id" id] = None →
     observable (effects (handleCancel supabase id))
     = [Update "bookings" "cancelled" [Eq "id" id];
        setBookingRequests (Updater (patch_status id "cancelled"))])
  ∧ (∀ e,
       update_bookings supabase "cancelled" [Eq "id" id] = Some e →
       observable (effects (handleCancel supabase id))
       = [Update "bookings" "cancelled" [Eq "id" id]]
       ∧ Console Error "Error cancelling booking:" (Some e)
           ∈ effects (handleCancel supabase id)
       ∧ Console Error "Error updating booking status:" (Some e)
           ∈ effects (handleRespond supabase id "cancelled")).
Proof.
  assert (Hobs : observable (effects (handleCancel supabase id))
                 = observable (effects (handleRespond supabase id "cancelled"))).
  { destruct (update_bookings supabase "cancelled" [Eq "id" id]) as [e|] eqn:Hu.
    - by rewrite (handleCancel_failed _ _ _ Hu), (handleRespond_failed _ _ _ _ Hu).
    - by rewrite (handleCancel_ok _ _ Hu), (handleRespond_ok _ _ _ Hu). }
  split; [exact Hobs|]. split; [|split].
  - intros st.
    rewrite <- (run_observable st (effects (handleCancel supabase id))).
    rewrite <- (run_observable st (effects (handleRespond supabase id "cancelled"))).
    by rewrite Hobs.
  - apply handleCancel_ok.
  - intros e Hu. split; [by apply (handleCancel_failed _ _ e)|].
    split.
    + unfold handleCancel. cbn. rewrite Hu. cbn.
      do 2 apply list_elem_of_further. apply list_elem_of_here.
    + unfold handleRespond. cbn. rewrite Hu. cbn.
      do 2 apply list_elem_of_further. apply list_elem_of_here.
Qed.

Lemma handleCancel_as_handleRespond_witness :
  observable (effects (handleCancel Sample.online "b1"))
  = [Update "bookings" "cancelled" [Eq "id" "b1"];
     setBookingRequests (Updater (patch_status "b1" "cancelled"))]
  ∧ observable (effects (handleCancel Sample.offline "b1"))
    = [Update "bookings" "cancelled" [Eq "id" "b1"]]
  ∧ run Sample.signed_in (effects (handleCancel Sample.offline "b1"))
    = run Sample.signed_in (effects (handleRespond Sample.offline "b1" "cancelled")).
Proof.
  destruct (handleCancel_as_handleRespond Sample.online "b1") as (_ & _ & Hok & _).
  destruct (handleCancel_as_handleRespond Sample.offline "b1") as (_ & Hrun & _ & Hfail).
  split; [apply Hok; reflexivity|].
  split; [apply (Hfail Sample.failure); reflexivity|].
  apply Hrun.
Defined.

(** ** Fetching bookings *)

(** The paths of [fetchBookingRequests], one list of effects each. *)
Lemma fetchBookingRequests_skipped supabase (sc : Scope) (v : option string) :
  truthy v = false →
  effects (fetchBookingRequests supabase sc v)
  = [Console Log "No user ID available, skipping booking fetch." None;
     setBookingRequests (Value [])].
Proof. intros Hv. unfold fetchBookingRequests. rewrite Hv. reflexivity. Qed.

Lemma fetchBookingRequests_client supabase (sc : Scope) (uid : string) :
  uid ≠ "" →
  userRole sc = "client" →
  effects (fetchBookingRequests supabase sc (Some uid))
  = execute_query supabase (client_query uid).
Proof.
  intros Huid Hrole. apply truthy_Some in Huid.
  unfold fetchBookingRequests, execute_query. rewrite Huid, Hrole. cbn.
  change (Query.eq "client_id" uid bookings_query) with (client_query uid).
  by destruct (failed (select_bookings supabase (client_query uid))).
Qed.

Lemma fetchBookingRequests_practitioner supabase (sc : Scope) (uid : string) :
  uid ≠ "" →
  userRole sc = "practitioner" →
  effects (fetchBookingRequests supabase sc (Some uid))
  = let r := select_service_ids supabase (owned_services_query uid) in
    Select (owned_services_query uid)
    :: (if failed r then
          [Console Error "Error fetching practitioner services:" (error r);
           setBookingRequests (Value [])]
        else
          match map ServiceId.id (default [] (data r)) with
          | [] => [setBookingRequests (Value [])]
          | serviceIds =>
              execute_query supabase (Query.in_ "service_id" serviceIds bookings_query)
          end).
Proof.
  intros Huid Hrole. apply truthy_Some in Huid.
  unfold fetchBookingRequests, execute_query. rewrite Huid, Hrole. cbn.
  destruct (failed (select_service_ids supabase (owned_services_query uid)));
    [reflexivity|]. cbn.
  destruct (map ServiceId.id _) as [|i ids]; [reflexivity|]. cbn.
  by destruct (failed (select_bookings supabase _)).
Qed.

Lemma fetchBookingRequests_other_role supabase (sc : Scope) (uid : string) :
  uid ≠ "" →
  userRole sc ≠ "client" →
  userRole sc ≠ "practitioner" →
  effects (fetchBookingRequests supabase sc (Some uid))
  = [Console Warn "User role not determined, cannot fetch specific bookings." None;
     setBookingRequests (Value [])].
Proof.
  intros Huid Hc Hp. apply truthy_Some in Huid.
  apply String.eqb_neq in Hc, Hp.
  unfold fetchBookingRequests. rewrite Huid, Hc, Hp. reflexivity.
Qed.

Lemma execute_query_select supabase (q q' : Query.t) :
  Select q' ∈ execute_query supabase q → q' = q.
Proof.
  unfold execute_query. cbn.
  destruct (failed (select_bookings supabase q)); cbn;
    rewrite !elem_of_cons, elem_of_nil; intros H;
    repeat (destruct H as [H|H]; try discriminate H; try contradiction);
    by injection H.
Qed.

Lemma execute_query_selects_on supabase (q : Query.t) :
  Query.table q = "bookings" →
  selects_on "bookings" (execute_query supabase q) = [Select q]
  ∧ selects_on "services" (execute_query supabase q) = [].
Proof.
  intros Htbl. unfold execute_query, selects_on. cbn. rewrite Htbl. cbn.
  by destruct (failed (select_bookings supabase q)).
Qed.

Lemma execute_query_failed supabase (q : Query.t) (st : State) :
  failed (select_bookings supabase q) = true →
  bookingRequests (run st (execute_query supabase q)) = []
  ∧ Console Error "Error fetching booking requests:"
      (error (select_bookings supabase q)) ∈ execute_query supabase q.
Proof.
  intros Hfail. unfold execute_query. cbn. rewrite Hfail. cbn.
  split; [reflexivity|]. do 3 apply list_elem_of_further. apply list_elem_of_here.
Qed.

Lemma execute_query_succeeded supabase (q : Query.t) (st : State) :
  failed (select_bookings supabase q) = false →
  bookingRequests (run st (execute_query supabase q))
  = formattedRequests supabase (data (select_bookings supabase q)).
Proof. intros Hok. unfold execute_query. cbn. rewrite Hok. reflexivity. Qed.

(** C3. With the client role, every select that a booking fetch sends for
    an identifier is the client query: on the bookings table, the service
    title and provider name nested, filtered by the client reference being
    that identifier and by nothing else, newest update first, at most 3
    rows.  For a non-empty identifier that query is sent, once, and no
    other. *)
Theorem fetchBookingRequests_client_query supabase (sc : Scope) (uid : string) :
  userRole sc = "client" →
  (∀ q, Select q ∈ effects (fetchBookingRequests supabase sc (Some uid)) →
        q = client_query uid)
  ∧ (uid ≠ "" →
     List.filter is_select (effects (fetchBookingRequests supabase sc (Some uid)))
     = [Select {| Query.table := "bookings";
                  Query.columns :=
                    [Star;
                     Relation "services"
                       [Column "title"; Relation "users" [Column "name"]]];
                  Query.order := Some ("updated_at", false);
                  Query.limit := Some 3;
                  Query.filters := [Eq "client_id" uid] |}]).
Proof.
  intros Hrole.
  destruct (String.eqb_spec uid "") as [->|Huid].
  - split; [|done].
    intros q. rewrite fetchBookingRequests_skipped by reflexivity.
    rewrite !elem_of_cons, elem_of_nil. intros [H|[H|[]]]; discriminate H.
  - rewrite (fetchBookingRequests_client _ _ _ Huid Hrole). split.
    + intros q. apply execute_query_select.
    + intros _. unfold execute_query. cbn.
      by destruct (failed (select_bookings supabase (client_query uid))).
Qed.

Lemma fetchBookingRequests_client_query_witness :
  (∀ q, Select q ∈ effects (fetchBookingRequests Sample.online
                              (render Sample.props Sample.signed_in)
                              (Some "user-1")) →
        q = client_query "user-1")
  ∧ List.filter is_select
      (effects (fetchBookingRequests Sample.online
                  (render Sample.props Sample.signed_in) (Some "user-1")))
    = [Select {| Query.table := "bookings";
                 Query.columns :=
                   [Star;
                    Relation "services"
                      [Column "title"; Relation "users" [Column "name"]]];
                 Query.order := Some ("updated_at", false);
                 Query.limit := Some 3;
                 Query.filters := [Eq "client_id" "user-1"] |}].
Proof.
  destruct (fetchBookingRequests_client_query Sample.online
              (render Sample.props Sample.signed_in) "user-1" eq_refl)
    as [Hall Hsent].
  split; [exact Hall|]. apply Hsent. discriminate.
Defined.

(** C4. With the practitioner role, when the sub-fetch of the owned
    services fails, or succeeds with no service identifier, the view-model
    list becomes empty and no select is sent to the bookings table.  For a
    non-empty identifier the sub-fetch is the only select sent. *)
Theorem fetchBookingRequests_practitioner_without_services
    supabase (sc : Scope) (uid : string) (st : State) :
  userRole sc = "practitioner" →
  failed (select_service_ids supabase (owned_services_query uid)) = true
  ∨ (failed (select_service_ids supabase (owned_services_query uid)) = false
     ∧ default [] (data (select_service_ids supabase (owned_services_query uid)))
       = []) →
  bookingRequests (run st (effects (fetchBookingRequests supabase sc (Some uid))))
  = []
  ∧ selects_on "bookings" (effects (fetchBookingRequests supabase sc (Some uid)))
    = []
  ∧ (uid ≠ "" →
     List.filter is_select (effects (fetchBookingRequests supabase sc (Some uid)))
     = [Select (owned_services_query uid)]).
Proof.
  intros Hrole Hsub.
  destruct (String.eqb_spec uid "") as [->|Huid].
  - rewrite fetchBookingRequests_skipped by reflexivity. by repeat split.
  - rewrite (fetchBookingRequests_practitioner _ _ _ Huid Hrole). cbn.
    destruct Hsub as [Hfail|[Hok Hnone]].
    + rewrite Hfail. by repeat split.
    + rewrite Hok, Hnone. by repeat split.
Qed.

Lemma fetchBookingRequests_practitioner_without_services_witness :
  bookingRequests
    (run Sample.signed_in
       (effects (fetchBookingRequests Sample.online
                   {| props := Sample.props; seen := Sample.signed_in;
                      userRole := "practitioner" |} (Some "user-1"))))
  = []
  ∧ selects_on "bookings"
      (effects (fetchBookingRequests Sample.online
                  {| props := Sample.props; seen := Sample.signed_in;
                     userRole := "practitioner" |} (Some "user-1")))
    = []
  ∧ List.filter is_select
      (effects (fetchBookingRequests Sample.offline
                  {| props := Sample.props; seen := Sample.signed_in;
                     userRole := "practitioner" |} (Some "user-1")))
    = [Select (owned_services_query "user-1")].
Proof.
  destruct (fetchBookingRequests_practitioner_without_services Sample.online
              {| props := Sample.props; seen := Sample.signed_in;
                 userRole := "practitioner" |} "user-1" Sample.signed_in eq_refl)
    as (Hlist & Hnone & _).
  { right. split; reflexivity. }
  destruct (fetchBookingRequests_practitioner_without_services Sample.offline
              {| props := Sample.props; seen := Sample.signed_in;
                 userRole := "practitioner" |} "user-1" Sample.signed_in eq_refl)
    as (_ & _ & Honly).
  { left. reflexivity. }
  split; [exact Hlist|]. split; [exact Hnone|]. apply Honly. discriminate.
Defined.

(** Every select that a booking fetch sends to the bookings table is its
    main query, sent once, with the rest of the fetch hanging on its
    answer. *)
Lemma fetchBookingRequests_main_query
    supabase (sc : Scope) (v : option string) (q : Query.t) :
  Select q ∈ effects (fetchBookingRequests supabase sc v) →
  Query.table q = "bookings" →
  ∃ before,
    effects (fetchBookingRequests supabase sc v) = before ++ execute_query supabase q
    ∧ selects_on "bookings" before = [].
Proof.
  intros Hin Htbl.
  destruct (truthy v) eqn:Hv.
  2:{ rewrite (fetchBookingRequests_skipped _ _ _ Hv) in Hin.
      rewrite !elem_of_cons, elem_of_nil in Hin.
      destruct Hin as [H|[H|[]]]; discriminate H. }
  destruct (truthy_inv _ Hv) as (uid & -> & Huid).
  destruct (String.eqb_spec (userRole sc) "client") as [Hc|Hc].
  - rewrite (fetchBookingRequests_client _ _ _ Huid Hc) in *.
    apply execute_query_select in Hin as ->. by exists [].
  - destruct (String.eqb_spec (userRole sc) "practitioner") as [Hp|Hp].
    + rewrite (fetchBookingRequests_practitioner _ _ _ Huid Hp) in *.
      cbn in *. apply elem_of_cons in Hin as [Hin|Hin].
      { injection Hin as ->. discriminate Htbl. }
      destruct (failed (select_service_ids supabase (owned_services_query uid))).
      { rewrite !elem_of_cons, elem_of_nil in Hin.
        destruct Hin as [H|[H|[]]]; discriminate H. }
      destruct (map ServiceId.id _) as [|i ids].
      { rewrite !elem_of_cons, elem_of_nil in Hin.
        destruct Hin as [H|[]]; discriminate H. }
      apply execute_query_select in Hin as ->.
      by exists [Select (owned_services_query uid)].
    + rewrite (fetchBookingRequests_other_role _ _ _ Huid Hc Hp) in Hin.
      rewrite !elem_of_cons, elem_of_nil in Hin.
      destruct Hin as [H|[H|[]]]; discriminate H.
Qed.

Lemma selects_on_app tbl (es es' : list Effect) :
  selects_on tbl (es ++ es') = selects_on tbl es ++ selects_on tbl es'.
Proof. apply List.filter_app. Qed.

(** C7. When the main query of a booking fetch fails, the view-model list
    becomes empty whatever it held, the error is logged, and the query is
    not sent again. *)
Theorem fetchBookingRequests_main_query_failure
    supabase (sc : Scope) (v : option string) (st : State) (q : Query.t) :
  Select q ∈ effects (fetchBookingRequests supabase sc v) →
  Query.table q = "bookings" →
  failed (select_bookings supabase q) = true →
  bookingRequests (run st (effects (fetchBookingRequests supabase sc v))) = []
  ∧ Console Error "Error fetching booking requests:"
      (error (select_bookings supabase q))
      ∈ effects (fetchBookingRequests supabase sc v)
  ∧ selects_on "bookings" (effects (fetchBookingRequests supabase sc v))
    = [Select q].
Proof.
  intros Hin Htbl Hfail.
  destruct (fetchBookingRequests_main_query _ _ _ _ Hin Htbl) as (before & -> & Hnone).
  destruct (execute_query_failed supabase q (run st before) Hfail) as [Hlist Hlog].
  split; [by rewrite run_app|]. split.
  - apply elem_of_app. by right.
  - rewrite selects_on_app, Hnone.
    by destruct (execute_query_selects_on supabase q Htbl) as [-> _].
Qed.

Lemma fetchBookingRequests_main_query_failure_witness :
  bookingRequests
    (run Sample.signed_in
       (effects (fetchBookingRequests Sample.offline
                   (render Sample.props Sample.signed_in) (Some "user-1"))))
  = []
  ∧ Console Error "Error fetching booking requests:" (Some Sample.failure)
      ∈ effects (fetchBookingRequests Sample.offline
                   (render Sample.props Sample.signed_in) (Some "user-1"))
  ∧ selects_on "bookings"
      (effects (fetchBookingRequests Sample.offline
                  (render Sample.props Sample.signed_in) (Some "user-1")))
    = [Select (client_query "user-1")].
Proof.
  apply (fetchBookingRequests_main_query_failure Sample.offline
           (render Sample.props Sample.signed_in) (Some "user-1")
           Sample.signed_in (client_query "user-1")).
  - apply list_elem_of_here.
  - reflexivity.
  - reflexivity.
Defined.

(** ** Formatting *)

(** A fetch whose main query succeeds stores the formatted rows. *)
Lemma fetchBookingRequests_client_success
    supabase (sc : Scope) (uid : string) (st : State) :
  uid ≠ "" →
  userRole sc = "client" →
  failed (select_bookings supabase (client_query uid)) = false →
  bookingRequests (run st (effects (fetchBookingRequests supabase sc (Some uid))))
  = formattedRequests supabase (data (select_bookings supabase (client_query uid))).
Proof.
  intros Huid Hrole Hok. rewrite (fetchBookingRequests_client _ _ _ Huid Hrole).
  by apply execute_query_succeeded.
Qed.

(** C5. The formatter yields one view model per row, in the order of the
    rows: the view model at a position carries the identifier and status of
    the row at that position, "Unknown Service" when the row has no service
    relation, "Unknown Practitioner" when it has no provider relation, and
    the empty string when it has no special-request text. *)
Theorem formattedRequests_rows supabase (rows : list Booking.t) :
  List.length (formattedRequests supabase (Some rows)) = List.length rows
  ∧ ∀ (i : nat) (row : Booking.t),
      rows !! i = Some row →
      ∃ vm,
        formattedRequests supabase (Some rows) !! i = Some vm
        ∧ BookingRequest.id vm = Booking.id row
        ∧ BookingRequest.status vm = Booking.status row
        ∧ (Booking.services row = None →
           BookingRequest.serviceTitle vm = "Unknown Service")
        ∧ (Booking.services row ?. ServiceRel.users = None →
           BookingRequest.practitionerName vm = "Unknown Practitioner")
        ∧ (Booking.special_requests row = None →
           BookingRequest.special_requests vm = "").
Proof.
  unfold formattedRequests. cbn. split; [apply length_map|].
  intros i row Hrow. exists (formatRequest supabase row).
  split; [by rewrite list_lookup_fmap, Hrow|].
  unfold formatRequest. cbn. repeat split.
  - by intros ->.
  - by intros ->.
  - by intros ->.
Qed.

Lemma formattedRequests_rows_witness :
  ∃ vm,
    formattedRequests Sample.online (Some [Sample.row1; Sample.row2]) !! 1%nat
    = Some vm
    ∧ BookingRequest.id vm = "b2"
    ∧ BookingRequest.status vm = "confirmed"
    ∧ BookingRequest.serviceTitle vm = "Unknown Service"
    ∧ BookingRequest.practitionerName vm = "Unknown Practitioner"
    ∧ BookingRequest.special_requests vm = "".
Proof.
  destruct (formattedRequests_rows Sample.online [Sample.row1; Sample.row2])
    as [_ Hrows].
  destruct (Hrows 1%nat Sample.row2 eq_refl)
    as (vm & Hvm & Hid & Hstatus & Htitle & Hname & Hnote).
  exists vm. repeat split; auto.
Defined.

(** ** The change listener *)

(** The callback of the realtime channel was made in the first render,
    where [clientId] is still null: whatever the session reader has stored
    since, it fetches for no user. *)
Lemma on_bookings_change_effects supabase (p : Props) (payload : string) :
  effects (on_bookings_change supabase p payload)
  = [Console Log "Bookings change received!" None;
     Console Log "No user ID available, skipping booking fetch." None;
     setBookingRequests (Value [])].
Proof. reflexivity. Qed.

(** C1 does not hold of the code. A client signs in: the mount effect
    stores the identifier "user-1" and shows the two bookings.  A change on
    the bookings table then arrives.  A fetch with the stored identifier
    would send the client query and show the two bookings again; the
    listener sends no query and empties the list. *)
Theorem on_bookings_change_forgets_user :
  let st := mount Sample.online Sample.props in
  clientId st = Some "user-1"
  ∧ bookingRequests st
    = formattedRequests Sample.online (Some [Sample.row1; Sample.row2])
  ∧ List.filter is_select
      (effects (fetchBookingRequests Sample.online (render Sample.props st)
                  (clientId st)))
    = [Select (client_query "user-1")]
  ∧ bookingRequests
      (run st (effects (fetchBookingRequests Sample.online
                          (render Sample.props st) (clientId st))))
    = formattedRequests Sample.online (Some [Sample.row1; Sample.row2])
  ∧ List.filter is_select
      (effects (on_bookings_change Sample.online Sample.props "UPDATE"))
    = []
  ∧ bookingRequests
      (run st (effects (on_bookings_change Sample.online Sample.props "UPDATE")))
    = [].
Proof. cbn. repeat split. Qed.

(** ** More on fetching bookings *)

(** Case analysis over the paths of [fetchBookingRequests]: the guard, the
    role, the answer of the sub-fetch and the answer of the main query. *)
Ltac fetch_paths supabase sc v :=
  unfold fetchBookingRequests;
  destruct (truthy v); cbn; [|try done];
  destruct (String.eqb (userRole sc) "client"); cbn;
    [destruct (failed (select_bookings supabase _)); cbn; try done|];
  destruct (String.eqb (userRole sc) "practitioner"); cbn; [|try done];
  destruct (failed (select_service_ids supabase _)); cbn; [try done|];
  destruct (default [] (data (select_service_ids supabase _))); cbn; [try done|];
  destruct (failed (select_bookings supabase _)); cbn; try done.

Lemma fetchBookingRequests_fetch_effects supabase (sc : Scope) (v : option string) :
  forallb fetch_effect (effects (fetchBookingRequests supabase sc v)) = true.
Proof. fetch_paths supabase sc v. Qed.

Lemma run_fetch_effects (es : list Effect) (st : State) :
  forallb fetch_effect es = true →
  services (run st es) = services st
  ∧ isLoadingServices (run st es) = isLoadingServices st
  ∧ selectedServiceId (run st es) = selectedServiceId st
  ∧ clientId (run st es) = clientId st.
Proof.
  revert st. induction es as [|e es IH]; intros st Hall; [done|].
  cbn in Hall. apply andb_prop in Hall as [He Hes].
  destruct e; try discriminate He;
    match goal with
    | |- context [run st (?e :: es)] =>
        change (run st (e :: es)) with (run (apply_effect st e) es);
        destruct (IH (apply_effect st e) Hes) as (-> & -> & -> & ->)
    end; done.
Qed.

(** X1. A booking fetch without an identifier, null or empty, sends no
    select and empties the view-model list, whatever the role. *)
Theorem fetchBookingRequests_without_identifier
    supabase (sc : Scope) (v : option string) (st : State) :
  truthy v = false →
  List.filter is_select (effects (fetchBookingRequests supabase sc v)) = []
  ∧ bookingRequests (run st (effects (fetchBookingRequests supabase sc v))) = [].
Proof.
  intros Hv. by rewrite (fetchBookingRequests_skipped _ _ _ Hv).
Qed.

Lemma fetchBookingRequests_without_identifier_witness :
  List.filter is_select
    (effects (fetchBookingRequests Catalog.stocked
                (Catalog.practitioner Sample.empty_identifier) (Some "")))
  = []
  ∧ bookingRequests
      (run Sample.signed_in
         (effects (fetchBookingRequests Catalog.stocked
                     (Catalog.practitioner Sample.empty_identifier) (Some ""))))
    = [].
Proof.
  apply (fetchBookingRequests_without_identifier Catalog.stocked
           (Catalog.practitioner Sample.empty_identifier) (Some "")
           Sample.signed_in).
  reflexivity.
Defined.

(** X2. With a role that is neither "client" nor "practitioner", a booking
    fetch sends no select, warns on the console and empties the list. *)
Theorem fetchBookingRequests_unknown_role
    supabase (sc : Scope) (uid : string) (st : State) :
  uid ≠ "" →
  userRole sc ≠ "client" →
  userRole sc ≠ "practitioner" →
  List.filter is_select (effects (fetchBookingRequests supabase sc (Some uid))) = []
  ∧ Console Warn "User role not determined, cannot fetch specific bookings." None
      ∈ effects (fetchBookingRequests supabase sc (Some uid))
  ∧ bookingRequests
      (run st (effects (fetchBookingRequests supabase sc (Some uid)))) = [].
Proof.
  intros Huid Hc Hp. rewrite (fetchBookingRequests_other_role _ _ _ Huid Hc Hp).
  repeat split. apply list_elem_of_here.
Qed.

Lemma fetchBookingRequests_unknown_role_witness :
  List.filter is_select
    (effects (fetchBookingRequests Catalog.stocked
                (Catalog.admin Sample.signed_in) (Some "user-1")))
  = []
  ∧ Console Warn "User role not determined, cannot fetch specific bookings." None
      ∈ effects (fetchBookingRequests Catalog.stocked
                   (Catalog.admin Sample.signed_in) (Some "user-1"))
  ∧ bookingRequests
      (run Sample.signed_in
         (effects (fetchBookingRequests Catalog.stocked
                     (Catalog.admin Sample.signed_in) (Some "user-1"))))
    = [].
Proof.
  apply (fetchBookingRequests_unknown_role Catalog.stocked
           (Catalog.admin Sample.signed_in) "user-1" Sample.signed_in);
    discriminate.
Defined.

(** X3. With the practitioner role, when the sub-fetch returns at least one
    service identifier, the fetch sends two selects: the sub-fetch, then the
    bookings query with the nesting, order and limit of the client query,
    filtered by the service reference being among the identifiers returned,
    in the order returned, and not by the client reference. *)
Theorem fetchBookingRequests_practitioner_query
    supabase (sc : Scope) (uid : string) (rows : list ServiceId.t) :
  uid ≠ "" →
  userRole sc = "practitioner" →
  select_service_ids supabase (owned_services_query uid)
  = {| data := Some rows; error := None |} →
  rows ≠ [] →
  List.filter is_select (effects (fetchBookingRequests supabase sc (Some uid)))
  = [Select {| Query.table := "services";
               Query.columns := [Column "id"];
               Query.order := None;
               Query.limit := None;
               Query.filters := [Eq "user_id" uid] |};
     Select {| Query.table := "bookings";
               Query.columns :=
                 [Star;
                  Relation "services"
                    [Column "title"; Relation "users" [Column "name"]]];
               Query.order := Some ("updated_at", false);
               Query.limit := Some 3;
               Query.filters := [In_ "service_id" (map ServiceId.id rows)] |}].
Proof.
  intros Huid Hrole Hsub Hrows.
  rewrite (fetchBookingRequests_practitioner _ _ _ Huid Hrole). cbn.
  rewrite Hsub. cbn.
  destruct rows as [|r rows]; [done|]. cbn.
  unfold execute_query. cbn.
  by destruct (failed (select_bookings supabase _)).
Qed.

Lemma fetchBookingRequests_practitioner_query_witness :
  List.filter is_select
    (effects (fetchBookingRequests Catalog.stocked
                (Catalog.practitioner Sample.signed_in) (Some "alice")))
  = [Select {| Query.table := "services";
               Query.columns := [Column "id"];
               Query.order := None;
               Query.limit := None;
               Query.filters := [Eq "user_id" "alice"] |};
     Select {| Query.table := "bookings";
               Query.columns :=
                 [Star;
                  Relation "services"
                    [Column "title"; Relation "users" [Column "name"]]];
               Query.order := Some ("updated_at", false);
               Query.limit := Some 3;
               Query.filters := [In_ "service_id" ["S1"]] |}].
Proof.
  apply (fetchBookingRequests_practitioner_query Catalog.stocked
           (Catalog.practitioner Sample.signed_in) "alice"
           [{| ServiceId.id := "S1" |}]).
  - discriminate.
  - reflexivity.
  - reflexivity.
  - discriminate.
Defined.

(** X4. A booking fetch only reads: it sends no insert and no update, and
    of the component state it sets the view-model list and nothing else. *)
Theorem fetchBookingRequests_only_reads
    supabase (sc : Scope) (v : option string) (st : State) :
  List.filter is_write (effects (fetchBookingRequests supabase sc v)) = []
  ∧ services (run st (effects (fetchBookingRequests supabase sc v))) = services st
  ∧ isLoadingServices (run st (effects (fetchBookingRequests supabase sc v)))
    = isLoadingServices st
  ∧ selectedServiceId (run st (effects (fetchBookingRequests supabase sc v)))
    = selectedServiceId st
  ∧ clientId (run st (effects (fetchBookingRequests supabase sc v))) = clientId st.
Proof.
  pose proof (fetchBookingRequests_fetch_effects supabase sc v) as Hall.
  split; [|by apply run_fetch_effects].
  induction (effects (fetchBookingRequests supabase sc v)) as [|e es IH]; [done|].
  cbn in Hall. apply andb_prop in Hall as [He Hes].
  destruct e; try discriminate He; cbn; by apply IH.
Qed.

(** X5. What a booking fetch leaves in the view-model list does not depend
    on what the list held: it is empty, or it is the formatted answer of a
    select on the bookings table that the fetch sent and that succeeded. *)
Theorem fetchBookingRequests_replaces_list
    supabase (sc : Scope) (v : option string) (st : State) :
  (∀ st' : State,
     bookingRequests (run st' (effects (fetchBookingRequests supabase sc v)))
     = bookingRequests (run st (effects (fetchBookingRequests supabase sc v))))
  ∧ (bookingRequests (run st (effects (fetchBookingRequests supabase sc v))) = []
     ∨ ∃ q,
         Select q ∈ effects (fetchBookingRequests supabase sc v)
         ∧ Query.table q = "bookings"
         ∧ failed (select_bookings supabase q) = false
         ∧ bookingRequests (run st (effects (fetchBookingRequests supabase sc v)))
           = formattedRequests supabase (data (select_bookings supabase q))).
Proof.
  split.
  - intros st'. fetch_paths supabase sc v.
  - unfold fetchBookingRequests.
    destruct (truthy v); cbn; [|by left].
    destruct (String.eqb (userRole sc) "client"); cbn.
    { destruct (failed (select_bookings supabase _)) eqn:Hr; cbn; [by left|].
      right. eexists. split; [apply list_elem_of_here|]. by repeat split. }
    destruct (String.eqb (userRole sc) "practitioner"); cbn; [|by left].
    destruct (failed (select_service_ids supabase _)); cbn; [by left|].
    destruct (default [] (data (select_service_ids supabase _))); cbn; [by left|].
    destruct (failed (select_bookings supabase _)) eqn:Hr; cbn; [by left|].
    right. eexists. split; [apply list_elem_of_further, list_elem_of_here|].
    by repeat split.
Qed.

(** ** More on creating a booking *)



(** X7. The [onBookingMade] callback is called once when the insert
    succeeded and the callback was given, and not at all otherwise: not
    when the insert failed, not when the guard stopped the handler. *)
Theorem handleBookingRequest_callback
    supabase (sc : Scope) request serviceId :
  List.filter is_callback
    (effects (handleBookingRequest supabase sc request serviceId))
  = if truthy (clientId (seen sc))
       && negb (failed (insert_booking supabase
                  {| BookingInsert.service_id := serviceId;
                     BookingInsert.client_id := default "" (clientId (seen sc));
                     BookingInsert.booking_date :=
                       BookingFormData.booking_date request;
                     BookingInsert.special_requests :=
                       BookingFormData.special_requests request;
                     BookingInsert.status := "pending" |}))
       && onBookingMade (props sc)
    then [Call_onBookingMade] else [].
Proof.
  unfold handleBookingRequest.
  destruct (truthy (clientId (seen sc))); cbn; [|done].
  destruct (failed (insert_booking supabase _)); cbn; [done|].
  by destruct (onBookingMade (props sc)).
Qed.

(** X8. Of the component state the handler sets the selected service and
    nothing else, on every path. *)
Theorem handleBookingRequest_frame
    supabase (sc : Scope) request serviceId (st : State) :
  services (run st (effects (handleBookingRequest supabase sc request serviceId)))
  = services st
  ∧ isLoadingServices
      (run st (effects (handleBookingRequest supabase sc request serviceId)))
    = isLoadingServices st
  ∧ bookingRequests
      (run st (effects (handleBookingRequest supabase sc request serviceId)))
    = bookingRequests st
  ∧ clientId (run st (effects (handleBookingRequest supabase sc request serviceId)))
    = clientId st.
Proof.
  unfold handleBookingRequest.
  destruct (truthy (clientId (seen sc))); cbn; [|done].
  destruct (failed (insert_booking supabase _)); cbn; [done|].
  by destruct (onBookingMade (props sc)).
Qed.

(** ** More on updating and cancelling *)

Lemma patch_status_lookup id status (l : list BookingRequest.t) (i : nat) :
  patch_status id status l !! i
  = (fun req => if String.eqb (BookingRequest.id req) id
                then BookingRequest.with_status req status else req)
    <$> l !! i.
Proof. unfold patch_status. apply list_lookup_fmap. Qed.


Lemma patch_status_comm id1 id2 s1 s2 (l : list BookingRequest.t) :
  id1 ≠ id2 →
  patch_status id2 s2 (patch_status id1 s1 l)
  = patch_status id1 s1 (patch_status id2 s2 l).
Proof.
  intros Hne. induction l as [|req l IH]; [done|].
  cbn. fold (patch_status id1 s1 l). fold (patch_status id2 s2 l).
  fold (patch_status id2 s2 (patch_status id1 s1 l)).
  fold (patch_status id1 s1 (patch_status id2 s2 l)). rewrite IH. f_equal.
  destruct (String.eqb (BookingRequest.id req) id1) eqn:E1;
    destruct (String.eqb (BookingRequest.id req) id2) eqn:E2;
    cbn; rewrite ?E1, ?E2; try done.
  apply String.eqb_eq in E1, E2. congruence.
Qed.

Lemma run_handleRespond_ok supabase id status (st : State) :
  update_bookings supabase status [Eq "id" id] = None →
  run st (effects (handleRespond supabase id status))
  = {| services := services st; isLoadingServices := isLoadingServices st;
       selectedServiceId := selectedServiceId st;
       bookingRequests := patch_status id status (bookingRequests st);
       clientId := clientId st |}.
Proof.
  intros Hok. by rewrite <- run_observable, (handleRespond_ok _ _ _ Hok).
Qed.

Lemma run_handleCancel_ok supabase id (st : State) :
  update_bookings supabase "cancelled" [Eq "id" id] = None →
  run st (effects (handleCancel supabase id))
  = {| services := services st; isLoadingServices := isLoadingServices st;
       selectedServiceId := selectedServiceId st;
       bookingRequests := patch_status id "cancelled" (bookingRequests st);
       clientId := clientId st |}.
Proof.
  intros Hok. by rewrite <- run_observable, (handleCancel_ok _ _ Hok).
Qed.

(** X9. A status update that the data service rejects leaves the whole
    component state as it was; the update is the only write sent and the
    error is logged. *)
Theorem handleRespond_failure supabase id status (st : State) e :
  update_bookings supabase status [Eq "id" id] = Some e →
  run st (effects (handleRespond supabase id status)) = st
  ∧ List.filter is_write (effects (handleRespond supabase id status))
    = [Update "bookings" status [Eq "id" id]]
  ∧ Console Error "Error updating booking status:" (Some e)
      ∈ effects (handleRespond supabase id status).
Proof.
  intros Hfail. unfold handleRespond. cbn. rewrite Hfail. cbn.
  repeat split. do 2 apply list_elem_of_further. apply list_elem_of_here.
Qed.

Lemma handleRespond_failure_witness :
  run Sample.signed_in (effects (handleRespond Sample.offline "b1" "confirmed"))
  = Sample.signed_in
  ∧ List.filter is_write (effects (handleRespond Sample.offline "b1" "confirmed"))
    = [Update "bookings" "confirmed" [Eq "id" "b1"]]
  ∧ Console Error "Error updating booking status:" (Some Sample.failure)
      ∈ effects (handleRespond Sample.offline "b1" "confirmed").
Proof.
  apply (handleRespond_failure Sample.offline "b1" "confirmed" Sample.signed_in
           Sample.failure).
  reflexivity.
Defined.

(** X10. After a successful status update the list has the entries it had,
    position by position: an entry with the identifier has the new status
    and its other fields, any other entry is the entry it was.  Every entry
    with the identifier is patched, not the first one only. *)
Theorem handleRespond_patches_every_match
    supabase id status (st : State) :
  update_bookings supabase status [Eq "id" id] = None →
  List.length (bookingRequests (run st (effects (handleRespond supabase id status))))
  = List.length (bookingRequests st)
  ∧ ∀ (i : nat) (req : BookingRequest.t),
      bookingRequests st !! i = Some req →
      (BookingRequest.id req = id →
       bookingRequests (run st (effects (handleRespond supabase id status))) !! i
       = Some (BookingRequest.with_status req status))
      ∧ (BookingRequest.id req ≠ id →
         bookingRequests (run st (effects (handleRespond supabase id status))) !! i
         = Some req).
Proof.
  intros Hok. rewrite (run_handleRespond_ok _ _ _ _ Hok). cbn. split.
  - unfold patch_status. apply length_map.
  - intros i req Hreq. rewrite patch_status_lookup, Hreq. cbn. split.
    + intros ->. by rewrite String.eqb_refl.
    + intros Hne. by rewrite (proj2 (String.eqb_neq _ _) Hne).
Qed.

Lemma handleRespond_patches_every_match_witness :
  bookingRequests
    (run {| services := []; isLoadingServices := false; selectedServiceId := None;
            bookingRequests := [formatRequest Sample.online Sample.row1;
                                formatRequest Sample.online Sample.row1];
            clientId := Some "user-1" |}
         (effects (handleRespond Sample.online "b1" "confirmed"))) !! 1%nat
  = Some (BookingRequest.with_status (formatRequest Sample.online Sample.row1)
            "confirmed").
Proof.
  destruct (handleRespond_patches_every_match Sample.online "b1" "confirmed"
              {| services := []; isLoadingServices := false;
                 selectedServiceId := None;
                 bookingRequests := [formatRequest Sample.online Sample.row1;
                                     formatRequest Sample.online Sample.row1];
                 clientId := Some "user-1" |} eq_refl) as [_ Hat].
  destruct (Hat 1%nat (formatRequest Sample.online Sample.row1) eq_refl)
    as [Hsame _].
  apply Hsame. reflexivity.
Defined.



(** X12. Successful patches of two different bookings do not interfere:
    responding to one and cancelling the other gives the same state in
    either order. *)
Theorem patches_of_different_bookings_commute
    supabase id1 id2 status (st : State) :
  id1 ≠ id2 →
  update_bookings supabase status [Eq "id" id1] = None →
  update_bookings supabase "cancelled" [Eq "id" id2] = None →
  run (run st (effects (handleRespond supabase id1 status)))
      (effects (handleCancel supabase id2))
  = run (run st (effects (handleCancel supabase id2)))
        (effects (handleRespond supabase id1 status)).
Proof.
  intros Hne H1 H2.
  rewrite !(run_handleRespond_ok _ _ _ _ H1), !(run_handleCancel_ok _ _ _ H2).
  cbn [services isLoadingServices selectedServiceId bookingRequests clientId].
  by rewrite (patch_status_comm _ _ _ _ _ Hne).
Qed.

Lemma patches_of_different_bookings_commute_witness :
  run (run Sample.signed_in (effects (handleRespond Sample.online "b1" "confirmed")))
      (effects (handleCancel Sample.online "b2"))
  = run (run Sample.signed_in (effects (handleCancel Sample.online "b2")))
        (effects (handleRespond Sample.online "b1" "confirmed")).
Proof.
  apply (patches_of_different_bookings_commute Sample.online "b1" "b2" "confirmed"
           Sample.signed_in).
  - discriminate.
  - reflexivity.
  - reflexivity.
Defined.

(** ** The cards and the inline form *)

Lemma has_form_selected supabase (sc : Scope) (service : Service.t) :
  has_form supabase sc service
  = strict_eq (selectedServiceId (seen sc)) (Service.id service).
Proof.
  unfold has_form, card_form, strict_eq.
  destruct (selectedServiceId (seen sc)) as [selected|]; [|done].
  by destruct (String.eqb selected (Service.id service)).
Qed.

(** X13. Pressing the button of a card whose form is open closes it, and no
    card shows a form; pressing the button of a card whose form is closed
    opens the form on the cards of that service and on no other, closing
    whichever form was open. *)
Theorem onPress_opens_or_closes
    supabase (sc sc' : Scope) (service other : Service.t) :
  seen sc' = run (seen sc) (effects (onPress service)) →
  has_form supabase sc' other
  = negb (has_form supabase sc service)
    && String.eqb (Service.id service) (Service.id other).
Proof.
  intros Hseen. rewrite !has_form_selected, Hseen. cbn.
  destruct (strict_eq (selectedServiceId (seen sc)) (Service.id service)); done.
Qed.

Lemma onPress_opens_or_closes_witness :
  has_form Catalog.stocked
    (render Sample.props (run Sample.signed_in (effects (onPress Catalog.S2))))
    Catalog.S2
  = true
  ∧ has_form Catalog.stocked
      (render Sample.props (run Sample.signed_in (effects (onPress Catalog.S2))))
      Catalog.S1
    = false.
Proof.
  split.
  - apply (onPress_opens_or_closes Catalog.stocked
             (render Sample.props Sample.signed_in)
             (render Sample.props (run Sample.signed_in (effects (onPress Catalog.S2))))
             Catalog.S2 Catalog.S2).
    reflexivity.
  - apply (onPress_opens_or_closes Catalog.stocked
             (render Sample.props Sample.signed_in)
             (render Sample.props (run Sample.signed_in (effects (onPress Catalog.S2))))
             Catalog.S2 Catalog.S1).
    reflexivity.
Defined.

(** X14. Pressing the button of a card twice restores the selection when no
    form or this card's form was open; when the form of another service was
    open, the two presses leave no form open. *)
Theorem onPress_twice (service : Service.t) (st : State) :
  selectedServiceId
    (run (run st (effects (onPress service))) (effects (onPress service)))
  = match selectedServiceId st with
    | None => None
    | Some selected =>
        if String.eqb selected (Service.id service) then Some selected else None
    end.
Proof.
  cbn. destruct (selectedServiceId st) as [selected|]; cbn.
  - destruct (String.eqb_spec selected (Service.id service)) as [->|Hne]; cbn.
    + done.
    + by rewrite String.eqb_refl.
  - by rewrite String.eqb_refl.
Qed.

(** X15. When the services of the catalog have different identifiers, at
    most one card shows the inline form. *)
Theorem at_most_one_form supabase (sc : Scope) (catalog : list Service.t) :
  NoDup (map Service.id catalog) →
  (List.length (List.filter (has_form supabase sc) catalog) ≤ 1)%nat.
Proof.
  intros Hnodup.
  assert (Hnone : ∀ (selected : string) (l : list Service.t),
             selected ∉ map Service.id l →
             List.filter (has_form supabase sc) l = []
             ∨ selectedServiceId (seen sc) ≠ Some selected).
  { intros selected l. induction l as [|s l IH]; intros Hnotin; [by left|].
    cbn in Hnotin. apply not_elem_of_cons in Hnotin as [Hne Hnotin].
    destruct (IH Hnotin) as [Hl|Hsel]; [|by right].
    destruct (selectedServiceId (seen sc)) as [x|] eqn:Hx; [|by right].
    destruct (String.eqb_spec x selected) as [->|Hx']; [|right; congruence].
    left. cbn. rewrite has_form_selected, Hx. cbn.
    by rewrite (proj2 (String.eqb_neq _ _) Hne). }
  induction catalog as [|s catalog IH]; [cbn; lia|].
  cbn in Hnodup. apply NoDup_cons in Hnodup as [Hnotin Hnodup].
  cbn. destruct (has_form supabase sc s) eqn:Hs.
  - rewrite has_form_selected in Hs. unfold strict_eq in Hs.
    destruct (selectedServiceId (seen sc)) as [x|] eqn:Hx; [|discriminate].
    apply String.eqb_eq in Hs as ->.
    destruct (Hnone _ _ Hnotin) as [->|Hsel]; [cbn; lia|].
    congruence.
  - by apply IH.
Qed.

Lemma at_most_one_form_witness :
  (List.length
     (List.filter (has_form Catalog.stocked (render Sample.props Sample.signed_in))
        [Catalog.S1; Catalog.S2]) ≤ 1)%nat.
Proof.
  apply (at_most_one_form Catalog.stocked (render Sample.props Sample.signed_in)
           [Catalog.S1; Catalog.S2]).
  cbn. apply NoDup_cons_2; [|apply NoDup_singleton].
  rewrite list_elem_of_singleton. discriminate.
Defined.




(** ** The catalog *)

(** X17. Loading the catalog raises the loading flag before its one
    request, the select of every service with its owner's name, and leaves
    the flag down whether the request succeeded or not.  It sends no write. *)
Theorem fetchServices_loading_flag supabase (st : State) :
  (∃ rest,
     effects (fetchServices supabase)
     = setIsLoadingServices true :: Select catalog_query :: rest
     ∧ List.filter is_select rest = [])
  ∧ List.filter is_write (effects (fetchServices supabase)) = []
  ∧ isLoadingServices (run st (effects (fetchServices supabase))) = false.
Proof.
  unfold fetchServices. cbn.
  change (Query.select _ (Query.from "services")) with catalog_query.
  destruct (failed (select_services supabase catalog_query)); cbn;
    (split; [eexists; split; [reflexivity|reflexivity]|by split]).
Qed.

(** X18. After loading, the catalog is empty when the request failed, and
    otherwise holds the rows returned, none when the data is null; the
    bookings, the stored identifier and the selection are untouched. *)
Theorem fetchServices_catalog supabase (st : State) :
  services (run st (effects (fetchServices supabase)))
  = (if failed (select_services supabase catalog_query) then []
     else default [] (data (select_services supabase catalog_query)))
  ∧ bookingRequests (run st (effects (fetchServices supabase))) = bookingRequests st
  ∧ clientId (run st (effects (fetchServices supabase))) = clientId st
  ∧ selectedServiceId (run st (effects (fetchServices supabase)))
    = selectedServiceId st.
Proof.
  unfold fetchServices. cbn.
  change (Query.select _ (Query.from "services")) with catalog_query.
  by destruct (failed (select_services supabase catalog_query)).
Qed.

(** ** The session reader *)

(** The list a booking fetch leaves is the same from every state. *)
Lemma fetchBookingRequests_forgets_list
    supabase (sc : Scope) (v : option string) (st st' : State) :
  bookingRequests (run st' (effects (fetchBookingRequests supabase sc v)))
  = bookingRequests (run st (effects (fetchBookingRequests supabase sc v))).
Proof. fetch_paths supabase sc v. Qed.

(** X19. When the auth service reports an error, the session reader shows
    the authentication alert and does nothing else: no request to the data
    service, no change of state, even if a session came with the error. *)
Theorem fetchCurrentUser_auth_error supabase (sc : Scope) (st : State) e :
  auth_error (getSession supabase) = Some e →
  List.filter is_alert (effects (fetchCurrentUser supabase sc))
  = [Alert_alert "Authentication Error" "Could not retrieve user session."]
  ∧ List.filter is_select (effects (fetchCurrentUser supabase sc)) = []
  ∧ run st (effects (fetchCurrentUser supabase sc)) = st.
Proof.
  intros He. unfold fetchCurrentUser. cbn. rewrite He. done.
Qed.

Lemma fetchCurrentUser_auth_error_witness :
  List.filter is_alert
    (effects (fetchCurrentUser Catalog.signed_out_error
                (render Sample.props Sample.signed_in)))
  = [Alert_alert "Authentication Error" "Could not retrieve user session."]
  ∧ List.filter is_select
      (effects (fetchCurrentUser Catalog.signed_out_error
                  (render Sample.props Sample.signed_in))) = []
  ∧ run Sample.signed_in
      (effects (fetchCurrentUser Catalog.signed_out_error
                  (render Sample.props Sample.signed_in)))
    = Sample.signed_in.
Proof.
  apply (fetchCurrentUser_auth_error Catalog.signed_out_error
           (render Sample.props Sample.signed_in) Sample.signed_in Sample.failure).
  reflexivity.
Defined.

(** X20. When there is no session and no error, the session reader empties
    the view-model list without a request to the data service and without
    an alert; the stored identifier is left as it was. *)
Theorem fetchCurrentUser_no_session supabase (sc : Scope) (st : State) :
  auth_error (getSession supabase) = None →
  session (getSession supabase) = None →
  bookingRequests (run st (effects (fetchCurrentUser supabase sc))) = []
  ∧ clientId (run st (effects (fetchCurrentUser supabase sc))) = clientId st
  ∧ List.filter is_select (effects (fetchCurrentUser supabase sc)) = []
  ∧ List.filter is_alert (effects (fetchCurrentUser supabase sc)) = [].
Proof.
  intros He Hs. unfold fetchCurrentUser. cbn. rewrite He, Hs. done.
Qed.

Lemma fetchCurrentUser_no_session_witness :
  bookingRequests
    (run Sample.signed_in
       (effects (fetchCurrentUser Catalog.signed_out
                   (render Sample.props Sample.signed_in))))
  = []
  ∧ clientId
      (run Sample.signed_in
         (effects (fetchCurrentUser Catalog.signed_out
                     (render Sample.props Sample.signed_in))))
    = Some "user-1"
  ∧ List.filter is_select
      (effects (fetchCurrentUser Catalog.signed_out
                  (render Sample.props Sample.signed_in))) = []
  ∧ List.filter is_alert
      (effects (fetchCurrentUser Catalog.signed_out
                  (render Sample.props Sample.signed_in))) = [].
Proof.
  apply (fetchCurrentUser_no_session Catalog.signed_out
           (render Sample.props Sample.signed_in) Sample.signed_in);
    reflexivity.
Defined.

(** X21. With a session, the session reader stores the identifier of the
    session's user and fetches the bookings for that identifier, not for
    the identifier its scope holds: the selects it sends and the list it
    leaves are those of the fetch for the session's user. *)
Theorem fetchCurrentUser_session supabase (sc : Scope) (st : State) s :
  auth_error (getSession supabase) = None →
  session (getSession supabase) = Some s →
  clientId (run st (effects (fetchCurrentUser supabase sc)))
  = Some (Session.id (Session.user s))
  ∧ List.filter is_select (effects (fetchCurrentUser supabase sc))
    = List.filter is_select
        (effects (fetchBookingRequests supabase sc
                    (Some (Session.id (Session.user s)))))
  ∧ bookingRequests (run st (effects (fetchCurrentUser supabase sc)))
    = bookingRequests
        (run st (effects (fetchBookingRequests supabase sc
                            (Some (Session.id (Session.user s)))))).
Proof.
  intros He Hs.
  assert (Heff : effects (fetchCurrentUser supabase sc)
                 = [Auth_getSession; Console Log "User session found, ID:" None;
                    setClientId (Some (Session.id (Session.user s)))]
                   ++ effects (fetchBookingRequests supabase sc
                                 (Some (Session.id (Session.user s))))).
  { unfold fetchCurrentUser. cbn. rewrite He, Hs. reflexivity. }
  rewrite Heff, run_app.
  set (es := effects (fetchBookingRequests supabase sc _)).
  pose proof (fetchBookingRequests_fetch_effects supabase sc
                (Some (Session.id (Session.user s)))) as Hall. fold es in Hall.
  destruct (run_fetch_effects es
              (run st [Auth_getSession; Console Log "User session found, ID:" None;
                       setClientId (Some (Session.id (Session.user s)))]) Hall)
    as (_ & _ & _ & ->).
  split; [reflexivity|]. split; [reflexivity|].
  apply fetchBookingRequests_forgets_list.
Qed.

Lemma fetchCurrentUser_session_witness :
  clientId
    (run initial_state
       (effects (fetchCurrentUser Sample.online (first_render Sample.props))))
  = Some "user-1"
  ∧ List.filter is_select
      (effects (fetchCurrentUser Sample.online (first_render Sample.props)))
    = List.filter is_select
        (effects (fetchBookingRequests Sample.online (first_render Sample.props)
                    (Some "user-1")))
  ∧ bookingRequests
      (run initial_state
         (effects (fetchCurrentUser Sample.online (first_render Sample.props))))
    = bookingRequests
        (run initial_state
           (effects (fetchBookingRequests Sample.online
                       (first_render Sample.props) (Some "user-1")))).
Proof.
  apply (fetchCurrentUser_session Sample.online (first_render Sample.props)
           initial_state {| Session.user := {| Session.id := "user-1" |} |});
    reflexivity.
Defined.

(** ** Mounting *)

Lemma useEffect_body_effects supabase (sc : Scope) :
  effects (useEffect_body supabase sc)
  = effects (fetchCurrentUser supabase sc)
    ++ effects (fetchServices supabase)
    ++ [Channel_subscribe "public:bookings" "*" "public" "bookings"].
Proof. reflexivity. Qed.

Lemma run_fetchServices supabase (st : State) :
  run st (effects (fetchServices supabase))
  = {| services :=
         (if failed (select_services supabase catalog_query) then []
          else default [] (data (select_services supabase catalog_query)));
       isLoadingServices := false;
       selectedServiceId := selectedServiceId st;
       bookingRequests := bookingRequests st;
       clientId := clientId st |}.
Proof.
  unfold fetchServices. cbn.
  change (Query.select _ (Query.from "services")) with catalog_query.
  by destruct (failed (select_services supabase catalog_query)).
Qed.

Lemma fetchCurrentUser_with_session supabase (sc : Scope) s :
  auth_error (getSession supabase) = None →
  session (getSession supabase) = Some s →
  effects (fetchCurrentUser supabase sc)
  = [Auth_getSession; Console Log "User session found, ID:" None;
     setClientId (Some (Session.id (Session.user s)))]
    ++ effects (fetchBookingRequests supabase sc
                  (Some (Session.id (Session.user s)))).
Proof. intros He Hs. unfold fetchCurrentUser. cbn. rewrite He, Hs. reflexivity. Qed.

Lemma filter_fetch_effects (es : list Effect) :
  forallb fetch_effect es = true →
  List.filter is_subscribe es = [].
Proof.
  induction es as [|e es IH]; [done|]. cbn. intros Hall.
  apply andb_prop in Hall as [He Hes]. destruct e; try discriminate He; by apply IH.
Qed.

Lemma fetchCurrentUser_never_subscribes supabase (sc : Scope) :
  List.filter is_subscribe (effects (fetchCurrentUser supabase sc)) = [].
Proof.
  unfold fetchCurrentUser. cbn.
  destruct (auth_error (getSession supabase)); cbn; [done|].
  destruct (session (getSession supabase)); cbn; [|done].
  apply filter_fetch_effects, fetchBookingRequests_fetch_effects.
Qed.

Lemma fetchCurrentUser_frame supabase (sc : Scope) (st : State) :
  services (run st (effects (fetchCurrentUser supabase sc))) = services st
  ∧ isLoadingServices (run st (effects (fetchCurrentUser supabase sc)))
    = isLoadingServices st
  ∧ selectedServiceId (run st (effects (fetchCurrentUser supabase sc)))
    = selectedServiceId st
  ∧ clientId (run st (effects (fetchCurrentUser supabase sc)))
    = match auth_error (getSession supabase), session (getSession supabase) with
      | None, Some s => Some (Session.id (Session.user s))
      | _, _ => clientId st
      end.
Proof.
  destruct (auth_error (getSession supabase)) as [e|] eqn:He.
  { unfold fetchCurrentUser. cbn. by rewrite He. }
  destruct (session (getSession supabase)) as [s|] eqn:Hs.
  2:{ unfold fetchCurrentUser. cbn. by rewrite He, Hs. }
  rewrite (fetchCurrentUser_with_session _ _ _ He Hs), run_app.
  pose proof (fetchBookingRequests_fetch_effects supabase sc
                (Some (Session.id (Session.user s)))) as Hall.
  by destruct (run_fetch_effects _
                 (run st [Auth_getSession;
                          Console Log "User session found, ID:" None;
                          setClientId (Some (Session.id (Session.user s)))])
                 Hall) as (-> & -> & -> & ->).
Qed.

(** X22. Mounting subscribes to the changes of the bookings table exactly
    once, for every kind of event, whatever the auth and the data service
    answer. *)
Theorem mount_subscribes_once supabase (p : Props) :
  List.filter is_subscribe (effects (useEffect_body supabase (first_render p)))
  = [Channel_subscribe "public:bookings" "*" "public" "bookings"].
Proof.
  rewrite useEffect_body_effects.
  rewrite !List.filter_app, fetchCurrentUser_never_subscribes. cbn.
  unfold fetchServices. cbn.
  by destruct (failed (select_services supabase _)).
Qed.

(** X23. After mounting, the loading flag is down and no form is open; the
    catalog is what the services request returned, or empty if it failed,
    whatever the auth service answered; the stored identifier is that of
    the session's user when there is a session and no auth error, and null
    otherwise. *)
Theorem mount_state supabase (p : Props) :
  isLoadingServices (mount supabase p) = false
  ∧ selectedServiceId (mount supabase p) = None
  ∧ services (mount supabase p)
    = (if failed (select_services supabase catalog_query) then []
       else default [] (data (select_services supabase catalog_query)))
  ∧ clientId (mount supabase p)
    = match auth_error (getSession supabase), session (getSession supabase) with
      | None, Some s => Some (Session.id (Session.user s))
      | _, _ => None
      end.
Proof.
  unfold mount. rewrite useEffect_body_effects, !run_app, run_fetchServices.
  destruct (fetchCurrentUser_frame supabase (first_render p) initial_state)
    as (_ & _ & Hsel & Hid).
  unfold run at 1.
  cbn [fold_left apply_effect services isLoadingServices selectedServiceId clientId].
  rewrite Hsel, Hid. repeat split.
Qed.

(** ** The shape of every select of a fetch *)

(** X24. Whatever the role, the identifier and the answers, a select that a
    booking fetch sends carries exactly one filter, and a select it sends to
    the bookings table asks for at most 3 rows, newest update first, with
    the service title and provider name nested. *)
Theorem fetchBookingRequests_selects_are_scoped
    supabase (sc : Scope) (v : option string) (q : Query.t) :
  Select q ∈ effects (fetchBookingRequests supabase sc v) →
  List.length (Query.filters q) = 1%nat
  ∧ (Query.table q = "bookings" →
     Query.limit q = Some 3%nat
     ∧ Query.order q = Some ("updated_at", false)
     ∧ Query.columns q
       = [Star; Relation "services" [Column "title"; Relation "users" [Column "name"]]]).
Proof.
  intros Hin.
  destruct (truthy v) eqn:Hv.
  2:{ rewrite (fetchBookingRequests_skipped _ _ _ Hv) in Hin.
      rewrite !elem_of_cons, elem_of_nil in Hin.
      destruct Hin as [H|[H|[]]]; discriminate H. }
  destruct (truthy_inv _ Hv) as (uid & -> & Huid).
  destruct (String.eqb_spec (userRole sc) "client") as [Hc|Hc].
  - rewrite (fetchBookingRequests_client _ _ _ Huid Hc) in Hin.
    by apply execute_query_select in Hin as ->.
  - destruct (String.eqb_spec (userRole sc) "practitioner") as [Hp|Hp].
    + rewrite (fetchBookingRequests_practitioner _ _ _ Huid Hp) in Hin.
      cbn in Hin. apply elem_of_cons in Hin as [Hin|Hin].
      { injection Hin as ->. split; [done|]. discriminate. }
      destruct (failed (select_service_ids supabase (owned_services_query uid))).
      { rewrite !elem_of_cons, elem_of_nil in Hin.
        destruct Hin as [H|[H|[]]]; discriminate H. }
      destruct (map ServiceId.id _) as [|i ids].
      { rewrite !elem_of_cons, elem_of_nil in Hin.
        destruct Hin as [H|[]]; discriminate H. }
      by apply execute_query_select in Hin as ->.
    + rewrite (fetchBookingRequests_other_role _ _ _ Huid Hc Hp) in Hin.
      rewrite !elem_of_cons, elem_of_nil in Hin.
      destruct Hin as [H|[H|[]]]; discriminate H.
Qed.

Lemma fetchBookingRequests_selects_are_scoped_witness :
  List.length
    (Query.filters (Query.in_ "service_id" ["S1"] bookings_query)) = 1%nat
  ∧ Query.limit (Query.in_ "service_id" ["S1"] bookings_query) = Some 3%nat
  ∧ Query.order (Query.in_ "service_id" ["S1"] bookings_query)
    = Some ("updated_at", false).
Proof.
  destruct (fetchBookingRequests_selects_are_scoped Catalog.stocked
              (Catalog.practitioner Sample.signed_in) (Some "alice")
              (Query.in_ "service_id" ["S1"] bookings_query)) as [Hone Hshape].
  { apply list_elem_of_further, list_elem_of_here. }
  destruct (Hshape eq_refl) as (Hlimit & Horder & _).
  split; [exact Hone|]. split; [exact Hlimit|exact Horder].
Defined.
